(** * ReflexRush: tools/png_to_mem.py

    A shallow embedding of the image-to-memory-file converter and the
    properties its specification states about it.

    Python integers are unbounded, so they are modelled as [Z]; [>>], [<<] and
    [|] are [Z.shiftr], [Z.shiftl] and [Z.lor] (Python's shifts on negative
    numbers are arithmetic, as [Z.shiftr] is).  Text is [string]; the file
    system is a finite map from paths to contents.  The Pillow library is not
    part of the repository: it enters as an interface with the few laws the
    converter relies on. *)

From Stdlib Require Import ZArith Lia List String Ascii.
From stdpp Require Import base option strings gmap.

Open Scope string_scope.
Open Scope Z_scope.

(** ** The quantizer *)

Module Quantizer.

(** [def rgb_to_rgb444(r, g, b)] *)
Definition rgb_to_rgb444 (r g b : Z) : Z :=
  let r4 := Z.shiftr r 4 in
  let g4 := Z.shiftr g 4 in
  let b4 := Z.shiftr b 4 in
  Z.lor (Z.lor (Z.shiftl r4 8) (Z.shiftl g4 4)) b4.

(** An 8-bit channel value. *)
Definition is_byte (v : Z) : Prop := 0 <= v <= 255.

End Quantizer.

(** ** Python's format specification [03X] *)

Module Format.

(** The digit characters [int.__format__] uses for the presentation type
    [X]. *)
Definition hex_digit (d : Z) : ascii :=
  match String.get (Z.to_nat d) "0123456789ABCDEF" with
  | Some c => c
  | None => "?"%char
  end.

(** Digits of a non-negative number, most significant first.  The fuel is an
    upper bound on the number of digits. *)
Fixpoint hex_upper_aux (fuel : nat) (n : Z) (acc : string) : string :=
  match fuel with
  | O => acc
  | S k =>
      let acc' := String (hex_digit (n mod 16)) acc in
      if n / 16 =? 0 then acc' else hex_upper_aux k (n / 16) acc'
  end.

Definition hex_upper (n : Z) : string :=
  hex_upper_aux (S (Z.to_nat (Z.log2 n))) n "".

Fixpoint zeros (k : nat) : string :=
  match k with
  | O => ""
  | S k' => String "0" (zeros k')
  end.

(** Left padding with ['0'] up to [width] characters; longer strings are left
    as they are. *)
Definition zfill (width : nat) (s : string) : string :=
  zeros (width - String.length s) +:+ s.

(** [f"{n:03X}"]: the flag [0] pads with zeros after the sign, the sign
    counting in the width of 3. *)
Definition format_03X (n : Z) : string :=
  if n <? 0 then String "-" (zfill 2 (hex_upper (- n)))
  else zfill 3 (hex_upper n).

(** The three digits of a 12-bit code, one per nibble. *)
Definition three_digits (n : Z) : string :=
  String (hex_digit (n / 256))
    (String (hex_digit (n / 16 mod 16)) (String (hex_digit (n mod 16)) "")).

(** The characters of [[0-9A-F]]. *)
Definition is_upper_hex (c : ascii) : bool :=
  let k := nat_of_ascii c in
  ((48 <=? k)%nat && (k <=? 57)%nat) || ((65 <=? k)%nat && (k <=? 70)%nat).

Fixpoint all_chars (p : ascii -> bool) (s : string) : bool :=
  match s with
  | EmptyString => true
  | String c s' => p c && all_chars p s'
  end.

(** The number a string of uppercase hexadecimal digits denotes. *)
Definition digit_value (c : ascii) : Z :=
  let k := Z.of_nat (nat_of_ascii c) in
  if k <=? 57 then k - 48 else k - 55.

Fixpoint hex_value_aux (s : string) (acc : Z) : Z :=
  match s with
  | EmptyString => acc
  | String c s' => hex_value_aux s' (16 * acc + digit_value c)
  end.

Definition hex_value (s : string) : Z := hex_value_aux s 0.

End Format.

Import Quantizer Format.

(** ** Python effects: exceptions, standard output and files *)

Module Python.

Inductive exn : Type :=
| FileNotFoundError (path : string)
| OSError (path : string)
| ImageError (msg : string)
| IndexError
| ValueError (msg : string)
| SystemExit (code : Z).

Inductive result (A : Type) : Type :=
| Ok (a : A)
| Raise (e : exn).
Arguments Ok {A} a.
Arguments Raise {A} e.

(** What the program can observe and change: the files (path to contents),
    the lines printed so far, and which paths can be opened for writing. *)
Record World : Type := mkWorld {
  fs : gmap string string;
  stdout : list string;
  writable : string -> bool
}.

Definition set_fs (m : gmap string string) (w : World) : World :=
  {| fs := m; stdout := stdout w; writable := writable w |}.

Definition M (A : Type) : Type := World -> result A * World.

Definition ret {A} (a : A) : M A := fun w => (Ok a, w).

Definition raise {A} (e : exn) : M A := fun w => (Raise e, w).

Definition bind {A B} (c : M A) (k : A -> M B) : M B :=
  fun w =>
    match c w with
    | (Ok a, w') => k a w'
    | (Raise e, w') => (Raise e, w')
    end.

Definition lift {A} (r : result A) : M A := fun w => (r, w).

Declare Scope py_scope.
Delimit Scope py_scope with py.
Notation "x <- c ;; k" := (bind c (fun x => k))
  (at level 100, c at next level, right associativity) : py_scope.
Notation "c ;;; k" := (bind c (fun _ => k))
  (at level 100, right associativity) : py_scope.
Open Scope py_scope.

(** [print(s)] *)
Definition print (s : string) : M unit :=
  fun w => (Ok tt, {| fs := fs w; stdout := stdout w ++ [s]; writable := writable w |}).

(** [sys.exit(code)] *)
Definition sys_exit {A} (code : Z) : M A := raise (SystemExit code).

Definition newline : string := String "010" "".

(** A text file open for writing, known by its path. *)
Definition file := string.

(** Entering [with open(path, 'w') as f]: the file is created or truncated. *)
Definition open_w (path : string) : M file :=
  fun w =>
    if writable w path then (Ok path, set_fs (<[path := ""]> (fs w)) w)
    else (Raise (OSError path), w).

(** [f.write(s)]: the text goes at the end of the file.  The contents are the
    text as the program writes it; buffering and the platform's encoding of
    the newline lie below this model. *)
Definition file_write (f : file) (s : string) : M unit :=
  fun w => (Ok tt, set_fs (<[f := default "" (fs w !! f) +:+ s]> (fs w)) w).

(** [with open(path, 'w') as f: body]; leaving the block closes the file,
    which changes nothing in this model, whether [body] raised or not. *)
Definition with_open_w {A} (path : string) (body : file -> M A) : M A :=
  f <- open_w path ;; body f.

(** [for a in l: body] *)
Fixpoint for_each {A} (l : list A) (body : A -> M unit) : M unit :=
  match l with
  | [] => ret tt
  | a :: l' => body a ;;; for_each l' body
  end.

(** [range(n)] *)
Definition range (n : nat) : list Z := map Z.of_nat (seq 0 n).

(** The exit status of the interpreter for a script that ended with [r]. *)
Definition exit_status (r : result unit) : Z :=
  match r with
  | Ok _ => 0
  | Raise (SystemExit code) => code
  | Raise _ => 1
  end.

(** [s.splitlines()] for text whose only line terminator is the newline. *)
Fixpoint splitlines (s : string) : list string :=
  match s with
  | EmptyString => []
  | String c s' =>
      if Ascii.eqb c "010" then "" :: splitlines s'
      else match splitlines s' with
           | [] => [String c ""]
           | l :: ls => String c l :: ls
           end
  end.

(** The text made of the given lines, each followed by a newline. *)
Fixpoint unlines (ls : list string) : string :=
  match ls with
  | [] => ""
  | l :: ls' => l +:+ newline +:+ unlines ls'
  end.

End Python.

Import Python.

(** ** The image library *)

Module PIL.

Inductive resample : Type := NEAREST | LANCZOS | BILINEAR | BICUBIC | BOX | HAMMING.

(** The part of Pillow the converter uses.  [decode] is [Image.open] on the
    bytes of the file. *)
Class ImageLib : Type := {
  image : Type;
  decode : string -> result image;
  im_mode : image -> string;
  im_size : image -> Z * Z;
  im_convert : image -> string -> result image;
  im_resize : image -> Z * Z -> resample -> result image;
  im_getpixel : image -> Z * Z -> result (list Z)
}.

(** What Pillow guarantees about these operations. *)
Class ImageLibLaws (L : ImageLib) : Prop := {
  convert_mode : forall i m i',
    im_convert i m = Ok i' -> im_mode i' = m /\ im_size i' = im_size i;
  resize_size : forall i sz f i',
    im_resize i sz f = Ok i' -> im_size i' = sz /\ im_mode i' = im_mode i;
  getpixel_rgb : forall i x y,
    im_mode i = "RGB" ->
    0 <= x < fst (im_size i) -> 0 <= y < snd (im_size i) ->
    exists r g b, im_getpixel i (x, y) = Ok [r; g; b]
                  /\ is_byte r /\ is_byte g /\ is_byte b
}.

(** [Image.open(path)] *)
Definition Image_open `{ImageLib} (path : string) : M image :=
  fun w =>
    match fs w !! path with
    | Some bytes => (decode bytes, w)
    | None => (Raise (FileNotFoundError path), w)
    end.

End PIL.

Import PIL.

(** ** The converter *)

Module Converter.

Section WithLibrary.
Context `{L : ImageLib}.

(** [def convert_image_to_mem(input_file, output_file)] *)
Definition convert_image_to_mem (input_file output_file : string) : M unit :=
  img <- Image_open input_file ;;
  img <- lift (im_convert img "RGB") ;;
  img <- (if decide (im_size img ≠ (64, 48)) then
            print ("Resizing " +:+ input_file +:+ " to 64x48") ;;;
            lift (im_resize img (64, 48) NEAREST)
          else ret img) ;;
  with_open_w output_file (fun f =>
    for_each (range 48) (fun y =>
      for_each (range 64) (fun x =>
        px <- lift (im_getpixel img (x, y)) ;;
        match px with
        | [r; g; b] =>
            let rgb444 := rgb_to_rgb444 r g b in
            file_write f (format_03X rgb444 +:+ newline)
        | _ => raise (ValueError "unpack")
        end))) ;;;
  print ("✅ Converted " +:+ input_file +:+ " → " +:+ output_file).

(** The script body under [if __name__ == "__main__"], [argv] being
    [sys.argv]. *)
Definition main (argv : list string) : M unit :=
  (if decide (length argv ≠ 3%nat) then
     print "Usage: python png_to_mem.py input.png output.mem" ;;;
     sys_exit 1
   else ret tt) ;;;
  match argv !! 1%nat, argv !! 2%nat with
  | Some a1, Some a2 => convert_image_to_mem a1 a2
  | _, _ => raise IndexError
  end.

End WithLibrary.

End Converter.

Import Converter.

(** ** What the specification talks about *)

Module Spec.

Section WithLibrary.
Context `{L : ImageLib}.

(** The canvas of an input file: the decoded image in RGB, resized with the
    nearest-neighbour filter when its size is not 64 by 48.  The flag records
    whether the image was resized. *)
Inductive Canvas (bytes : string) : image -> bool -> Prop :=
| canvas_as_is i0 i1 :
    decode bytes = Ok i0 ->
    im_convert i0 "RGB" = Ok i1 ->
    im_size i1 = (64, 48) ->
    Canvas bytes i1 false
| canvas_resized i0 i1 i2 :
    decode bytes = Ok i0 ->
    im_convert i0 "RGB" = Ok i1 ->
    im_size i1 ≠ (64, 48) ->
    im_resize i1 (64, 48) NEAREST = Ok i2 ->
    Canvas bytes i2 true.

(** The input file yields no canvas: it is missing, or decoding, the
    conversion to RGB or the resizing raises [e]. *)
Inductive DecodeStageFails (w : World) (input_file : string) (e : exn) : Prop :=
| fails_missing :
    fs w !! input_file = None ->
    e = FileNotFoundError input_file ->
    DecodeStageFails w input_file e
| fails_decode bytes :
    fs w !! input_file = Some bytes ->
    decode bytes = Raise e ->
    DecodeStageFails w input_file e
| fails_convert bytes i0 :
    fs w !! input_file = Some bytes ->
    decode bytes = Ok i0 ->
    im_convert i0 "RGB" = Raise e ->
    DecodeStageFails w input_file e
| fails_resize bytes i0 i1 :
    fs w !! input_file = Some bytes ->
    decode bytes = Ok i0 ->
    im_convert i0 "RGB" = Ok i1 ->
    im_size i1 ≠ (64, 48) ->
    im_resize i1 (64, 48) NEAREST = Raise e ->
    DecodeStageFails w input_file e.

(** The quantized code of the pixel in column [x] of row [y]. *)
Definition pixel_code (img : image) (x y : Z) : option Z :=
  match im_getpixel img (x, y) with
  | Ok [r; g; b] => Some (rgb_to_rgb444 r g b)
  | _ => None
  end.

(** The codes of a canvas, row after row. *)
Definition canvas_codes (img : image) : list Z :=
  flat_map (fun y => map (fun x => default 0 (pixel_code img x y)) (range 64))
           (range 48).

(** The messages a successful conversion prints. *)
Definition notices (input_file output_file : string) (resized : bool) : list string :=
  (if resized then ["Resizing " +:+ input_file +:+ " to 64x48"] else [])
  ++ ["✅ Converted " +:+ input_file +:+ " → " +:+ output_file].

(** The lines of the output file for a canvas. *)
Definition canvas_lines (img : image) : list string :=
  map format_03X (canvas_codes img).

(** The world after a successful conversion. *)
Definition converted (input_file output_file : string) (canvas : image)
    (resized : bool) (w : World) : World :=
  {| fs := <[output_file := unlines (canvas_lines canvas)]> (fs w);
     stdout := stdout w ++ notices input_file output_file resized;
     writable := writable w |}.

(** The same library with another resizing operation. *)
Definition with_resize
    (resize' : image -> Z * Z -> resample -> result image) : ImageLib :=
  {| image := image;
     decode := decode;
     im_mode := im_mode;
     im_size := im_size;
     im_convert := im_convert;
     im_resize := resize';
     im_getpixel := im_getpixel |}.

End WithLibrary.

(** The texts of a list, one after the other. *)
Fixpoint join (ls : list string) : string :=
  match ls with
  | [] => ""
  | l :: ls' => l +:+ join ls'
  end.

Definition no_newline (l : string) : Prop :=
  all_chars (fun c => negb (Ascii.eqb c "010")) l = true.

(** A record of the output file: three characters of [[0-9A-F]]. *)
Definition is_record (l : string) : Prop :=
  String.length l = 3%nat /\ all_chars is_upper_hex l = true.

End Spec.

Import Spec.

(** ** A small image library

    An implementation of the interface, used to run the converter on concrete
    files.  A file is a width byte, a height byte and then three bytes per
    pixel, row after row; missing bytes read as zero. *)

Module Raw.

Record raw_image : Type := mkRaw {
  rmode : string;
  rsize : Z * Z;
  rpix : Z -> Z -> list Z
}.

Definition byte_at (s : string) (n : Z) : Z :=
  match String.get (Z.to_nat n) s with
  | Some c => Z.of_nat (nat_of_ascii c)
  | None => 0
  end.

Definition raw_decode (bytes : string) : result raw_image :=
  match bytes with
  | String cw (String ch data) =>
      let w := Z.of_nat (nat_of_ascii cw) in
      let h := Z.of_nat (nat_of_ascii ch) in
      if (w =? 0) || (h =? 0) then Raise (ImageError "empty image")
      else Ok {| rmode := "RAW"; rsize := (w, h);
                 rpix := fun x y =>
                   let k := 3 * (y * w + x) in
                   [byte_at data k; byte_at data (k + 1); byte_at data (k + 2)] |}
  | _ => Raise (ImageError "cannot identify image file")
  end.

Definition raw_convert (i : raw_image) (m : string) : result raw_image :=
  if String.eqb m "RGB" then
    Ok {| rmode := m; rsize := rsize i;
          rpix := fun x y => map (fun v => v mod 256) (firstn 3 (rpix i x y ++ [0; 0; 0])) |}
  else Raise (ImageError "conversion not supported").

Definition raw_resize (i : raw_image) (sz : Z * Z) (f : resample) : result raw_image :=
  match f with
  | NEAREST =>
      Ok {| rmode := rmode i; rsize := sz;
            rpix := fun x y =>
              rpix i (x * fst (rsize i) / fst sz) (y * snd (rsize i) / snd sz) |}
  | _ => Raise (ImageError "filter not supported")
  end.

Definition raw_getpixel (i : raw_image) (xy : Z * Z) : result (list Z) :=
  let '(x, y) := xy in
  if (0 <=? x) && (x <? fst (rsize i)) && (0 <=? y) && (y <? snd (rsize i))
  then (if String.eqb (rmode i) "RGB"
        then Ok (map (fun v => v mod 256) (firstn 3 (rpix i x y ++ [0; 0; 0])))
        else Ok (rpix i x y))
  else Raise IndexError.

#[local] Instance raw_lib : ImageLib := {|
  image := raw_image;
  decode := raw_decode;
  im_mode := rmode;
  im_size := rsize;
  im_convert := raw_convert;
  im_resize := raw_resize;
  im_getpixel := raw_getpixel
|}.

(** A 2 by 2 image: red, green, blue and white. *)
Definition four_pixels : string :=
  String "002" (String "002"
    (String "255" (String "000" (String "000"
    (String "000" (String "255" (String "000"
    (String "000" (String "000" (String "255"
    (String "255" (String "255" (String "255" ""))))))))))))).

(** A 64 by 48 image, black but for its first two pixels. *)
Definition full_size : string :=
  String "064" (String "048"
    (String "016" (String "032" (String "048"
    (String "255" (String "128" (String "007" ""))))))).

Definition world0 : World :=
  {| fs := {[ "in.raw" := four_pixels; "full.raw" := full_size; "bad.raw" := "x" ]};
     stdout := [];
     writable := fun p => negb (String.eqb p "/readonly.mem") |}.

(** Another world: the same image under the same path, other files, earlier
    output on the terminal, and a stale output file. *)
Definition world1 : World :=
  {| fs := {[ "in.raw" := four_pixels; "b.mem" := "stale" ]};
     stdout := ["earlier"];
     writable := fun _ => true |}.

(** The contents of a file after a run. *)
Definition file_after (r : result unit * World) (path : string) : option string :=
  fs (snd r) !! path.

(** The canvas of an input, computed. *)
Definition canvas_of (bytes : string) : option (raw_image * bool) :=
  match raw_decode bytes with
  | Ok i0 =>
      match raw_convert i0 "RGB" with
      | Ok i1 =>
          if decide (rsize i1 = (64, 48)) then Some (i1, false)
          else match raw_resize i1 (64, 48) NEAREST with
               | Ok i2 => Some (i2, true)
               | Raise _ => None
               end
      | Raise _ => None
      end
  | Raise _ => None
  end.

(** The decoded image of an input, and its conversion to RGB. *)
Definition decoded (bytes : string) : raw_image :=
  match raw_decode bytes with
  | Ok i => i
  | Raise _ => mkRaw "" (0, 0) (fun _ _ => [])
  end.

Definition in_rgb (bytes : string) : raw_image :=
  match raw_convert (decoded bytes) "RGB" with
  | Ok i => i
  | Raise _ => mkRaw "" (0, 0) (fun _ _ => [])
  end.

Definition small_canvas : raw_image :=
  match canvas_of four_pixels with
  | Some (i, _) => i
  | None => mkRaw "" (0, 0) (fun _ _ => [])
  end.

Definition full_canvas : raw_image :=
  match canvas_of full_size with
  | Some (i, _) => i
  | None => mkRaw "" (0, 0) (fun _ _ => [])
  end.

(** A library whose pixels have channel values beyond eight bits. *)
Definition wide_lib : ImageLib := {|
  image := raw_image;
  decode := raw_decode;
  im_mode := rmode;
  im_size := rsize;
  im_convert := raw_convert;
  im_resize := raw_resize;
  im_getpixel := fun _ _ => Ok [256; 0; 0]
|}.

End Raw.

(** ** The loop body, pixel by pixel *)

Module Body.

Section WithLibrary.
Context `{L : ImageLib}.

(** What one turn of the inner loop does with the pixel in column [x] of row
    [y] before it writes: the code it computes, or the exception that
    [getpixel] or the unpacking into [r, g, b] raises. *)
Definition pixel_outcome (img : image) (x y : Z) : result Z :=
  match im_getpixel img (x, y) with
  | Ok [r; g; b] => Ok (rgb_to_rgb444 r g b)
  | Ok _ => Raise (ValueError "unpack")
  | Raise e => Raise e
  end.

(** The resize notice, when there is one. *)
Definition resize_notice (input_file : string) (resized : bool) : list string :=
  if resized then ["Resizing " +:+ input_file +:+ " to 64x48"] else [].

End WithLibrary.

End Body.

Import Body.

(** ** A library that loses pixels

    The small library again, but reading a pixel fails from the seventieth
    pixel on (in row-major order of a 64-column image). *)

Module Short.

Definition short_getpixel (i : Raw.raw_image) (xy : Z * Z) : result (list Z) :=
  let '(x, y) := xy in
  if y * 64 + x <? 70 then Raw.raw_getpixel i xy else Raise IndexError.

Definition short_lib : ImageLib := {|
  image := Raw.raw_image;
  decode := Raw.raw_decode;
  im_mode := Raw.rmode;
  im_size := Raw.rsize;
  im_convert := Raw.raw_convert;
  im_resize := Raw.raw_resize;
  im_getpixel := short_getpixel
|}.

End Short.

Example format_examples :
  format_03X 0 = "000" /\ format_03X 4095 = "FFF" /\ format_03X 291 = "123"
  /\ format_03X 4096 = "1000" /\ format_03X (-1) = "-01"
  /\ format_03X 10 = "00A".
Proof. repeat split; reflexivity. Qed.

Example quantizer_examples :
  rgb_to_rgb444 16 32 48 = 291 /\ rgb_to_rgb444 255 255 255 = 4095
  /\ rgb_to_rgb444 255 0 0 = 3840 /\ rgb_to_rgb444 256 0 0 = 4096.
Proof. repeat split; reflexivity. Qed.

(** ** Bit packing *)

Section Packing.

(** A value below [2^k] shares no bit with a value shifted left by [k]. *)
Lemma land_shiftl_low (hi lo k : Z) :
  0 <= k -> 0 <= lo < 2 ^ k -> Z.land (Z.shiftl hi k) lo = 0.
Proof.
  intros Hk [Hlo Hlt]. apply Z.bits_inj'. intros n Hn.
  rewrite Z.land_spec, Z.bits_0.
  destruct (Z.ltb_spec n k) as [Hnk | Hnk].
  - rewrite Z.shiftl_spec_low by lia. reflexivity.
  - destruct (Z.eq_dec lo 0) as [-> | Hne].
    + rewrite Z.bits_0. apply andb_false_r.
    + rewrite (Z.bits_above_log2 lo n); [apply andb_false_r | lia |].
      apply Z.lt_le_trans with k; [| lia].
      apply Z.log2_lt_pow2; lia.
Qed.

(** So or-ing them is adding them. *)
Lemma lor_shiftl_add (hi lo k : Z) :
  0 <= k -> 0 <= lo < 2 ^ k -> Z.lor (Z.shiftl hi k) lo = hi * 2 ^ k + lo.
Proof.
  intros Hk Hlo.
  rewrite <- Z.lxor_lor by (apply land_shiftl_low; assumption).
  rewrite <- Z.add_nocarry_lxor by (apply land_shiftl_low; assumption).
  rewrite Z.shiftl_mul_pow2 by assumption. reflexivity.
Qed.

Lemma shiftr4_div (v : Z) : Z.shiftr v 4 = v / 16.
Proof. rewrite Z.shiftr_div_pow2 by lia. reflexivity. Qed.

Lemma nibble_of_byte (v : Z) : is_byte v -> 0 <= v / 16 <= 15.
Proof.
  unfold is_byte. intros [H0 H1]. split.
  - apply Z.div_pos; lia.
  - apply Z.lt_succ_r. apply Z.div_lt_upper_bound; lia.
Qed.

(** The packed code as a sum, whenever the green and blue nibbles fit in four
    bits; the red channel is not constrained. *)
Lemma rgb_to_rgb444_sum (r g b : Z) :
  0 <= g / 16 <= 15 -> 0 <= b / 16 <= 15 ->
  rgb_to_rgb444 r g b = (r / 16) * 256 + (g / 16) * 16 + b / 16.
Proof.
  intros Hg Hb. unfold rgb_to_rgb444. cbv zeta.
  rewrite !shiftr4_div.
  replace (Z.shiftl (r / 16) 8) with (Z.shiftl (Z.shiftl (r / 16) 4) 4)
    by (rewrite Z.shiftl_shiftl by lia; reflexivity).
  rewrite <- Z.shiftl_lor.
  rewrite (lor_shiftl_add (r / 16) (g / 16) 4) by lia.
  rewrite lor_shiftl_add by lia.
  change (2 ^ 4) with 16. lia.
Qed.

End Packing.

(** ** Strings *)

Section Strings.

Lemma append_nil_l (s : string) : "" +:+ s = s.
Proof. reflexivity. Qed.

Lemma append_cons (c : ascii) (s t : string) :
  String c s +:+ t = String c (s +:+ t).
Proof. reflexivity. Qed.

Lemma append_nil_r (s : string) : s +:+ "" = s.
Proof.
  induction s as [| c s IH]; [reflexivity |].
  rewrite append_cons, IH. reflexivity.
Qed.

Lemma append_assoc (s1 s2 s3 : string) : (s1 +:+ s2) +:+ s3 = s1 +:+ (s2 +:+ s3).
Proof.
  induction s1 as [| c s1 IH]; [reflexivity |].
  rewrite !append_cons, IH. reflexivity.
Qed.

Lemma all_chars_impl (p q : ascii -> bool) (s : string) :
  (forall c, p c = true -> q c = true) ->
  all_chars p s = true -> all_chars q s = true.
Proof.
  intros Hpq. induction s as [| c s IH]; simpl; [reflexivity |].
  intros H. apply andb_prop in H as [Hc Hs].
  rewrite (Hpq c Hc), (IH Hs). reflexivity.
Qed.

End Strings.

(** ** The format [03X] *)

Section Formatting.

Lemma digit_value_hex_digit (d : Z) :
  0 <= d < 16 -> digit_value (hex_digit d) = d.
Proof.
  intros Hd.
  assert (Hcases : d = 0 \/ d = 1 \/ d = 2 \/ d = 3 \/ d = 4 \/ d = 5 \/ d = 6
                   \/ d = 7 \/ d = 8 \/ d = 9 \/ d = 10 \/ d = 11 \/ d = 12
                   \/ d = 13 \/ d = 14 \/ d = 15) by lia.
  repeat (destruct Hcases as [-> | Hcases]; [reflexivity |]).
  subst d. reflexivity.
Qed.

Lemma hex_digit_is_upper_hex (d : Z) :
  0 <= d < 16 -> is_upper_hex (hex_digit d) = true.
Proof.
  intros Hd.
  assert (Hcases : d = 0 \/ d = 1 \/ d = 2 \/ d = 3 \/ d = 4 \/ d = 5 \/ d = 6
                   \/ d = 7 \/ d = 8 \/ d = 9 \/ d = 10 \/ d = 11 \/ d = 12
                   \/ d = 13 \/ d = 14 \/ d = 15) by lia.
  repeat (destruct Hcases as [-> | Hcases]; [reflexivity |]).
  subst d. reflexivity.
Qed.

(** Enough fuel: reading back the digits gives the number. *)
Lemma hex_value_hex_upper_aux (fuel : nat) :
  forall n acc, 0 <= n < 16 ^ Z.of_nat fuel ->
    hex_value_aux (hex_upper_aux fuel n acc) 0 = hex_value_aux acc n.
Proof.
  induction fuel as [| k IH]; intros n acc Hn.
  - simpl in *. replace n with 0 by lia. reflexivity.
  - rewrite Nat2Z.inj_succ, Z.pow_succ_r in Hn by lia.
    assert (Hmod : 0 <= n mod 16 < 16) by (apply Z.mod_pos_bound; lia).
    assert (Hdiv : 0 <= n / 16 < 16 ^ Z.of_nat k).
    { split; [apply Z.div_pos; lia | apply Z.div_lt_upper_bound; lia]. }
    simpl hex_upper_aux.
    destruct (Z.eqb_spec (n / 16) 0) as [Hz | Hnz].
    + simpl. rewrite digit_value_hex_digit by assumption.
      f_equal. pose proof (Z.div_mod n 16). lia.
    + rewrite IH by assumption. simpl.
      rewrite digit_value_hex_digit by assumption.
      f_equal. pose proof (Z.div_mod n 16). lia.
Qed.

Lemma hex_upper_fuel (n : Z) :
  0 <= n -> n < 16 ^ Z.of_nat (S (Z.to_nat (Z.log2 n))).
Proof.
  intros Hn. rewrite Nat2Z.inj_succ, Z2Nat.id by apply Z.log2_nonneg.
  destruct (Z.eq_dec n 0) as [-> | Hne]; [reflexivity |].
  apply Z.lt_le_trans with (2 ^ Z.succ (Z.log2 n)).
  - apply Z.log2_spec. lia.
  - apply Z.pow_le_mono_l. lia.
Qed.

(** [hex_upper] never runs out of fuel. *)
Lemma hex_value_hex_upper (n : Z) : 0 <= n -> hex_value (hex_upper n) = n.
Proof.
  intros Hn. unfold hex_value, hex_upper.
  rewrite hex_value_hex_upper_aux; [reflexivity |].
  split; [assumption | apply hex_upper_fuel; assumption].
Qed.

Lemma format_03X_12bit (n : Z) : 0 <= n <= 4095 -> format_03X n = three_digits n.
Proof.
  intros Hn.
  assert (Hall : forallb (fun k => String.eqb (format_03X (Z.of_nat k))
                                     (three_digits (Z.of_nat k)))
                         (seq 0 4096) = true) by (vm_compute; reflexivity).
  rewrite forallb_forall in Hall.
  specialize (Hall (Z.to_nat n)).
  rewrite Z2Nat.id in Hall by lia.
  apply String.eqb_eq, Hall, in_seq. lia.
Qed.

Lemma format_03X_record (n : Z) : 0 <= n <= 4095 -> is_record (format_03X n).
Proof.
  intros Hn. rewrite format_03X_12bit by assumption.
  assert (H1 : 0 <= n / 256 < 16).
  { split; [apply Z.div_pos; lia | apply Z.div_lt_upper_bound; lia]. }
  assert (H2 : 0 <= n / 16 mod 16 < 16) by (apply Z.mod_pos_bound; lia).
  assert (H3 : 0 <= n mod 16 < 16) by (apply Z.mod_pos_bound; lia).
  split; [reflexivity |]. unfold three_digits. simpl.
  rewrite !hex_digit_is_upper_hex by assumption. reflexivity.
Qed.

Lemma format_03X_value (n : Z) : 0 <= n <= 4095 -> hex_value (format_03X n) = n.
Proof.
  intros Hn. rewrite format_03X_12bit by assumption.
  assert (H1 : 0 <= n / 256 < 16).
  { split; [apply Z.div_pos; lia | apply Z.div_lt_upper_bound; lia]. }
  assert (H2 : 0 <= n / 16 mod 16 < 16) by (apply Z.mod_pos_bound; lia).
  assert (H3 : 0 <= n mod 16 < 16) by (apply Z.mod_pos_bound; lia).
  unfold three_digits, hex_value. simpl hex_value_aux.
  rewrite !digit_value_hex_digit by assumption.
  pose proof (Z.div_mod n 16). pose proof (Z.div_mod (n / 16) 16).
  replace (n / 256) with (n / 16 / 16) by (rewrite Z.div_div by lia; reflexivity).
  lia.
Qed.

End Formatting.

(** ** Lines of text *)

Section Lines.

Lemma splitlines_line (l rest : string) :
  no_newline l -> splitlines (l +:+ newline +:+ rest) = l :: splitlines rest.
Proof.
  unfold no_newline. induction l as [| c l IH]; intros Hl.
  - reflexivity.
  - simpl in Hl. apply andb_prop in Hl as [Hc Hl].
    rewrite append_cons. simpl splitlines.
    apply negb_true_iff in Hc. rewrite Hc, (IH Hl). reflexivity.
Qed.

Lemma splitlines_unlines (ls : list string) :
  Forall no_newline ls -> splitlines (unlines ls) = ls.
Proof.
  induction 1 as [| l ls Hl _ IH]; [reflexivity |].
  simpl unlines. rewrite splitlines_line by assumption. now rewrite IH.
Qed.

Lemma unlines_app (ls1 ls2 : list string) :
  unlines (ls1 ++ ls2) = unlines ls1 +:+ unlines ls2.
Proof.
  induction ls1 as [| l ls1 IH]; [reflexivity |].
  simpl. rewrite IH, !append_assoc. reflexivity.
Qed.

Lemma join_lines (ls : list string) :
  join (map (fun l => l +:+ newline) ls) = unlines ls.
Proof.
  induction ls as [| l ls IH]; [reflexivity |].
  simpl. rewrite IH, append_assoc. reflexivity.
Qed.

Lemma join_unlines_rows {A} (row : A -> list string) (l : list A) :
  join (map (fun a => unlines (row a)) l) = unlines (flat_map row l).
Proof.
  induction l as [| a l IH]; [reflexivity |].
  simpl. rewrite IH, unlines_app. reflexivity.
Qed.

Lemma map_flat_map_rows {A B C D} (f : C -> D) (h : A -> B -> C)
    (cols : list B) (rows : list A) :
  map f (flat_map (fun y => map (h y) cols) rows)
  = flat_map (fun y => map (fun x => f (h y x)) cols) rows.
Proof.
  induction rows as [| y rows IH]; [reflexivity |].
  simpl. rewrite map_app, IH, map_map. reflexivity.
Qed.

Lemma record_no_newline (l : string) : is_record l -> no_newline l.
Proof.
  intros [_ Hl]. unfold no_newline.
  apply all_chars_impl with (p := is_upper_hex); [| assumption].
  intros c Hc. destruct (Ascii.eqb_spec c "010") as [-> | _];
    [discriminate Hc | reflexivity].
Qed.

End Lines.

(** ** Loops that write to one file *)

Section Loops.

Lemma set_fs_set_fs (m1 m2 : gmap string string) (w : World) :
  set_fs m2 (set_fs m1 w) = set_fs m2 w.
Proof. reflexivity. Qed.

Lemma set_fs_id (w : World) : set_fs (fs w) w = w.
Proof. destruct w; reflexivity. Qed.

(** When every turn of a loop appends a text to the file [f] and does nothing
    else, the loop appends these texts in the order of the list. *)
Lemma for_each_appends {A} (f : file) (g : A -> string) (body : A -> M unit)
    (l : list A) :
  (forall a, In a l -> forall w c, fs w !! f = Some c ->
     body a w = (Ok tt, set_fs (<[f := c +:+ g a]> (fs w)) w)) ->
  forall w c, fs w !! f = Some c ->
    for_each l body w = (Ok tt, set_fs (<[f := c +:+ join (map g l)]> (fs w)) w).
Proof.
  induction l as [| a l IH]; intros Hbody w c Hc.
  - simpl. unfold ret. rewrite append_nil_r, insert_id by assumption.
    rewrite set_fs_id. reflexivity.
  - simpl. unfold bind at 1.
    rewrite (Hbody a (or_introl eq_refl) w c Hc).
    rewrite (IH (fun a' Ha' => Hbody a' (or_intror Ha')) _ (c +:+ g a)).
    + rewrite set_fs_set_fs. simpl fs.
      rewrite insert_insert_eq, append_assoc. reflexivity.
    + simpl. apply lookup_insert_eq.
Qed.

Lemma in_range (n : nat) (z : Z) : In z (range n) <-> 0 <= z < Z.of_nat n.
Proof.
  unfold range. rewrite in_map_iff. split.
  - intros (k & <- & Hk). apply in_seq in Hk. lia.
  - intros Hz. exists (Z.to_nat z). split; [lia | apply in_seq; lia].
Qed.

Lemma length_range (n : nat) : length (range n) = n.
Proof. unfold range. now rewrite length_map, length_seq. Qed.

End Loops.

(** ** The conversion, step by step *)

Section Conversion.
Context `{LL : ImageLibLaws}.

Lemma canvas_well_formed (bytes : string) (img : image) (resized : bool) :
  Canvas bytes img resized -> im_mode img = "RGB" /\ im_size img = (64, 48).
Proof.
  intros [i0 i1 _ Hconv Hsize | i0 i1 i2 _ Hconv _ Hres].
  - apply convert_mode in Hconv as [Hmode _]. auto.
  - apply convert_mode in Hconv as [Hmode _].
    apply resize_size in Hres as [Hsize Hmode']. split; congruence.
Qed.

(** A canvas determines its input's outcome: the relation is functional. *)
Lemma canvas_functional (bytes : string) (c1 c2 : image) (r1 r2 : bool) :
  Canvas bytes c1 r1 -> Canvas bytes c2 r2 -> c1 = c2 /\ r1 = r2.
Proof.
  intros [i0 i1 Hd Hc Hs | i0 i1 i2 Hd Hc Hs Hr]
         [j0 j1 Hd' Hc' Hs' | j0 j1 j2 Hd' Hc' Hs' Hr'];
    rewrite Hd in Hd'; injection Hd' as <-;
    rewrite Hc in Hc'; injection Hc' as <-;
    try contradiction; [auto |].
  rewrite Hr in Hr'. injection Hr' as <-. auto.
Qed.

Lemma canvas_pixel (img : image) (x y : Z) :
  im_mode img = "RGB" -> im_size img = (64, 48) ->
  0 <= x < 64 -> 0 <= y < 48 ->
  exists r g b, im_getpixel img (x, y) = Ok [r; g; b]
                /\ pixel_code img x y = Some (rgb_to_rgb444 r g b)
                /\ 0 <= rgb_to_rgb444 r g b <= 4095.
Proof.
  intros Hmode Hsize Hx Hy.
  destruct (getpixel_rgb img x y Hmode) as (r & g & b & Hpx & Hr & Hg & Hb);
    [rewrite Hsize; exact Hx | rewrite Hsize; exact Hy |].
  exists r, g, b. split; [assumption |]. split.
  - unfold pixel_code. rewrite Hpx. reflexivity.
  - apply nibble_of_byte in Hr, Hg, Hb.
    rewrite rgb_to_rgb444_sum by assumption. lia.
Qed.

Lemma canvas_lines_rows (img : image) :
  canvas_lines img
  = flat_map (fun y => map (fun x => format_03X (default 0 (pixel_code img x y)))
                           (range 64))
             (range 48).
Proof. apply map_flat_map_rows. Qed.

(** The two nested loops write the lines of the canvas. *)
Lemma write_canvas (img : image) (f : file) :
  im_mode img = "RGB" -> im_size img = (64, 48) ->
  forall w c, fs w !! f = Some c ->
    for_each (range 48) (fun y =>
      for_each (range 64) (fun x =>
        px <- lift (im_getpixel img (x, y)) ;;
        match px with
        | [r; g; b] =>
            let rgb444 := rgb_to_rgb444 r g b in
            file_write f (format_03X rgb444 +:+ newline)
        | _ => raise (ValueError "unpack")
        end)) w
    = (Ok tt, set_fs (<[f := c +:+ unlines (canvas_lines img)]> (fs w)) w).
Proof.
  intros Hmode Hsize w c Hc.
  rewrite canvas_lines_rows, <- join_unlines_rows.
  apply for_each_appends; [| assumption].
  intros y Hy w1 c1 Hc1. apply in_range in Hy.
  rewrite <- join_lines, map_map.
  apply for_each_appends; [| assumption].
  intros x Hx w2 c2 Hc2. apply in_range in Hx.
  destruct (canvas_pixel img x y Hmode Hsize) as (r & g & b & Hpx & Hcode & _);
    [lia | lia |].
  unfold bind, lift. rewrite Hpx, Hcode. cbv zeta.
  unfold file_write. rewrite Hc2. reflexivity.
Qed.

(** A conversion that finds a canvas and can write its output succeeds, and
    this is the world it leaves. *)
Lemma convert_ok (input_file output_file bytes : string) (canvas : image)
    (resized : bool) (w : World) :
  fs w !! input_file = Some bytes ->
  Canvas bytes canvas resized ->
  writable w output_file = true ->
  convert_image_to_mem input_file output_file w
  = (Ok tt, converted input_file output_file canvas resized w).
Proof.
  intros Hin Hcanvas Hwr.
  destruct (canvas_well_formed _ _ _ Hcanvas) as [Hmode Hsize].
  unfold convert_image_to_mem, converted, notices.
  destruct Hcanvas as [i0 i1 Hd Hc Hs | i0 i1 i2 Hd Hc Hs Hr];
    unfold bind at 1; unfold Image_open; rewrite Hin, Hd;
    unfold bind at 1; unfold lift at 1; rewrite Hc;
    unfold bind at 1.
  - rewrite decide_False by (intros Hne; apply Hne; exact Hs).
    unfold ret at 1. unfold bind at 1. unfold with_open_w, bind at 1.
    unfold open_w. rewrite Hwr.
    rewrite (write_canvas i1 output_file Hmode Hsize _ "")
      by (simpl; apply lookup_insert_eq).
    unfold print, set_fs. cbn [fs stdout writable].
    rewrite insert_insert_eq. reflexivity.
  - rewrite decide_True by exact Hs.
    unfold bind at 1. unfold print at 1. unfold lift at 1. rewrite Hr.
    unfold bind at 1. unfold with_open_w, bind at 1.
    unfold open_w. simpl writable. rewrite Hwr.
    rewrite (write_canvas i2 output_file Hmode Hsize _ "")
      by (simpl; apply lookup_insert_eq).
    unfold print, set_fs. cbn [fs stdout writable].
    rewrite insert_insert_eq, <- app_assoc. reflexivity.
Qed.

End Conversion.

(** ** Row-major order *)

Section RowMajor.

Lemma nth_error_rows_from {C} (h : Z -> Z -> C) (cols rows : nat) :
  forall s N, (N < rows * cols)%nat ->
    nth_error (flat_map (fun y => map (h y) (range cols))
                        (map Z.of_nat (seq s rows))) N
    = Some (h (Z.of_nat (s + N / cols)) (Z.of_nat (N mod cols))).
Proof.
  induction rows as [| r IH]; intros s N HN; [lia |].
  assert (Hcols : cols <> 0%nat) by lia.
  cbn [seq map flat_map].
  destruct (Nat.lt_ge_cases N cols) as [Hlt | Hge].
  - rewrite nth_error_app1 by (rewrite length_map, length_range; exact Hlt).
    rewrite nth_error_map. unfold range. rewrite nth_error_map, nth_error_seq.
    destruct (Nat.ltb_spec N cols) as [_ | Hbad]; [| lia].
    rewrite Nat.div_small, Nat.mod_small by exact Hlt.
    rewrite Nat.add_0_r. reflexivity.
  - rewrite nth_error_app2 by (rewrite length_map, length_range; exact Hge).
    rewrite length_map, length_range.
    rewrite IH by (simpl in HN; lia).
    assert (Hd : (N / cols = 1 + (N - cols) / cols)%nat).
    { replace N with (1 * cols + (N - cols))%nat at 1 by lia.
      apply Nat.div_add_l. exact Hcols. }
    assert (Hm : (N mod cols = (N - cols) mod cols)%nat).
    { replace N with ((N - cols) + 1 * cols)%nat at 1 by lia.
      apply Nat.Div0.mod_add. }
    rewrite Hd, Hm. do 3 f_equal. lia.
Qed.

Lemma nth_error_rows {C} (h : Z -> Z -> C) (cols rows N : nat) :
  (N < rows * cols)%nat ->
  nth_error (flat_map (fun y => map (h y) (range cols)) (range rows)) N
  = Some (h (Z.of_nat (N / cols)) (Z.of_nat (N mod cols))).
Proof. intros HN. unfold range at 2. now rewrite nth_error_rows_from. Qed.

Lemma length_rows {C} (h : Z -> Z -> C) (cols : nat) (rows : list Z) :
  length (flat_map (fun y => map (h y) (range cols)) rows)
  = (length rows * cols)%nat.
Proof.
  induction rows as [| y rows IH]; [reflexivity |].
  cbn [flat_map]. rewrite length_app, length_map, length_range, IH.
  reflexivity.
Qed.

End RowMajor.

(** ** The small library keeps the laws *)

Section RawLaws.

Lemma three_channels (l : list Z) :
  exists r g b, map (fun v => v mod 256) (firstn 3 (l ++ [0; 0; 0])) = [r; g; b]
                /\ is_byte r /\ is_byte g /\ is_byte b.
Proof.
  assert (Hb : forall v, is_byte (v mod 256)).
  { intros v. unfold is_byte. pose proof (Z.mod_pos_bound v 256). lia. }
  destruct l as [| a [| b [| c l]]]; simpl; eauto 10.
Qed.

#[local] Instance raw_laws : ImageLibLaws Raw.raw_lib.
Proof.
  split.
  - intros i m i'. simpl. unfold Raw.raw_convert.
    destruct (String.eqb_spec m "RGB") as [-> | _]; [| discriminate].
    intros [= <-]. auto.
  - intros i sz f i'. simpl. unfold Raw.raw_resize.
    destruct f; try discriminate. intros [= <-]. auto.
  - intros i x y. simpl. intros Hmode Hx Hy. unfold Raw.raw_getpixel.
    rewrite Hmode.
    destruct (Z.leb_spec 0 x); [| lia].
    destruct (Z.ltb_spec x (fst (Raw.rsize i))); [| lia].
    destruct (Z.leb_spec 0 y); [| lia].
    destruct (Z.ltb_spec y (snd (Raw.rsize i))); [| lia].
    simpl. destruct (three_channels (Raw.rpix i x y)) as (r & g & b & Heq & Hrgb).
    exists r, g, b. rewrite Heq. auto.
Qed.

Lemma small_canvas_is_canvas : Canvas (L := Raw.raw_lib) Raw.four_pixels Raw.small_canvas true.
Proof.
  eapply canvas_resized; [reflexivity | reflexivity | | reflexivity].
  simpl. intros [=].
Qed.

Lemma full_canvas_is_canvas : Canvas (L := Raw.raw_lib) Raw.full_size Raw.full_canvas false.
Proof. eapply canvas_as_is; reflexivity. Qed.

End RawLaws.

(** ** The quantizer's contract *)

Section QuantizerContract.

(** C1.  For 8-bit channels the quantizer returns
    [((r>>4)<<8) | ((g>>4)<<4) | (b>>4)]: every channel is cut down to its top
    four bits by a floor division by 16 (no rounding), red lies in bits 8 to
    11, green in bits 4 to 7 and blue in bits 0 to 3, and the code is between
    0 and 4095. *)
Theorem quantizer_exact (r g b : Z) :
  is_byte r -> is_byte g -> is_byte b ->
  rgb_to_rgb444 r g b
    = Z.lor (Z.lor (Z.shiftl (Z.shiftr r 4) 8) (Z.shiftl (Z.shiftr g 4) 4))
            (Z.shiftr b 4)
  /\ rgb_to_rgb444 r g b = (r / 16) * 256 + (g / 16) * 16 + b / 16
  /\ Z.shiftr (rgb_to_rgb444 r g b) 8 = r / 16
  /\ Z.land (Z.shiftr (rgb_to_rgb444 r g b) 4) 15 = g / 16
  /\ Z.land (rgb_to_rgb444 r g b) 15 = b / 16
  /\ 0 <= rgb_to_rgb444 r g b <= 4095.
Proof.
  intros Hr Hg Hb.
  apply nibble_of_byte in Hr, Hg, Hb.
  split; [reflexivity |].
  rewrite rgb_to_rgb444_sum by assumption.
  split; [reflexivity |].
  change 15 with (Z.ones 4).
  rewrite !Z.land_ones, !Z.shiftr_div_pow2 by lia.
  change (2 ^ 8) with 256. change (2 ^ 4) with 16.
  set (R := r / 16) in *. set (G := g / 16) in *. set (B := b / 16) in *.
  assert (H8 : (R * 256 + G * 16 + B) / 256 = R).
  { symmetry. apply Z.div_unique with (r := G * 16 + B); lia. }
  assert (H4 : (R * 256 + G * 16 + B) / 16 = R * 16 + G).
  { symmetry. apply Z.div_unique with (r := B); lia. }
  assert (H4m : (R * 16 + G) mod 16 = G).
  { symmetry. apply Z.mod_unique with (q := R); lia. }
  assert (H0 : (R * 256 + G * 16 + B) mod 16 = B).
  { symmetry. apply Z.mod_unique with (q := R * 16 + G); lia. }
  rewrite H8, H4, H4m, H0. repeat split; lia.
Qed.

Lemma quantizer_exact_witness :
  rgb_to_rgb444 16 32 48
    = Z.lor (Z.lor (Z.shiftl (Z.shiftr 16 4) 8) (Z.shiftl (Z.shiftr 32 4) 4))
            (Z.shiftr 48 4)
  /\ rgb_to_rgb444 16 32 48 = (16 / 16) * 256 + (32 / 16) * 16 + 48 / 16
  /\ Z.shiftr (rgb_to_rgb444 16 32 48) 8 = 16 / 16
  /\ Z.land (Z.shiftr (rgb_to_rgb444 16 32 48) 4) 15 = 32 / 16
  /\ Z.land (rgb_to_rgb444 16 32 48) 15 = 48 / 16
  /\ 0 <= rgb_to_rgb444 16 32 48 <= 4095.
Proof. apply (quantizer_exact 16 32 48); unfold is_byte; lia. Defined.

End QuantizerContract.

(** ** The output file *)

Section OutputFile.
Context `{LL : ImageLibLaws}.

Lemma length_canvas_codes (img : image) : length (canvas_codes img) = 3072%nat.
Proof.
  unfold canvas_codes. rewrite length_rows, length_range. reflexivity.
Qed.

Lemma length_canvas_lines (img : image) : length (canvas_lines img) = 3072%nat.
Proof. unfold canvas_lines. now rewrite length_map, length_canvas_codes. Qed.

(** Every code of a canvas is the quantizer's result on an 8-bit pixel. *)
Lemma canvas_codes_12bit (img : image) :
  im_mode img = "RGB" -> im_size img = (64, 48) ->
  Forall (fun code => 0 <= code <= 4095) (canvas_codes img).
Proof.
  intros Hmode Hsize. apply List.Forall_forall. intros code Hin.
  unfold canvas_codes in Hin.
  apply in_flat_map in Hin as (y & Hy & Hin).
  apply in_map_iff in Hin as (x & <- & Hx).
  apply in_range in Hx, Hy.
  destruct (canvas_pixel img x y Hmode Hsize) as (r & g & b & _ & -> & Hcode);
    [lia | lia | exact Hcode].
Qed.

Lemma canvas_lines_records (img : image) :
  im_mode img = "RGB" -> im_size img = (64, 48) ->
  Forall is_record (canvas_lines img).
Proof.
  intros Hmode Hsize. unfold canvas_lines.
  apply List.Forall_forall. intros l Hin.
  apply in_map_iff in Hin as (code & <- & Hin).
  pose proof (canvas_codes_12bit img Hmode Hsize) as Hall.
  rewrite List.Forall_forall in Hall.
  apply format_03X_record, Hall, Hin.
Qed.

Lemma splitlines_canvas (img : image) :
  im_mode img = "RGB" -> im_size img = (64, 48) ->
  splitlines (unlines (canvas_lines img)) = canvas_lines img.
Proof.
  intros Hmode Hsize. apply splitlines_unlines.
  eapply List.Forall_impl; [| apply canvas_lines_records; assumption].
  intros l. apply record_no_newline.
Qed.

Lemma converted_file (input_file output_file : string) (canvas : image)
    (resized : bool) (w : World) :
  fs (converted input_file output_file canvas resized w) !! output_file
  = Some (unlines (canvas_lines canvas)).
Proof. unfold converted. cbn [fs]. apply lookup_insert_eq. Qed.

(** C2.  Whatever the dimensions of the source image (resized or not), a
    conversion of a valid input image succeeds and leaves an output file of
    exactly 3072 lines. *)
Theorem output_has_3072_lines (input_file output_file bytes : string)
    (canvas : image) (resized : bool) (w : World) :
  fs w !! input_file = Some bytes ->
  Canvas bytes canvas resized ->
  writable w output_file = true ->
  exists w' content,
    convert_image_to_mem input_file output_file w = (Ok tt, w')
    /\ fs w' !! output_file = Some content
    /\ length (splitlines content) = 3072%nat.
Proof.
  intros Hin Hcanvas Hwr.
  destruct (canvas_well_formed _ _ _ Hcanvas) as [Hmode Hsize].
  eexists _, _. split; [eapply convert_ok; eassumption |].
  split; [apply converted_file |].
  rewrite splitlines_canvas by assumption. apply length_canvas_lines.
Qed.

(** C3.  Line [N] of the output (counting from 0) is the code of the canvas
    pixel in row [N / 64] and column [N mod 64]: rows from top to bottom,
    columns from left to right within a row. *)
Theorem line_N_is_pixel_N (input_file output_file bytes : string)
    (canvas : image) (resized : bool) (w : World) (N : nat) :
  fs w !! input_file = Some bytes ->
  Canvas bytes canvas resized ->
  writable w output_file = true ->
  (N < 3072)%nat ->
  exists w' content code,
    convert_image_to_mem input_file output_file w = (Ok tt, w')
    /\ fs w' !! output_file = Some content
    /\ pixel_code canvas (Z.of_nat N mod 64) (Z.of_nat N / 64) = Some code
    /\ nth_error (splitlines content) N = Some (format_03X code).
Proof.
  intros Hin Hcanvas Hwr HN.
  destruct (canvas_well_formed _ _ _ Hcanvas) as [Hmode Hsize].
  destruct (canvas_pixel canvas (Z.of_nat N mod 64) (Z.of_nat N / 64) Hmode Hsize)
    as (r & g & b & _ & Hcode & _).
  { apply Z.mod_pos_bound. lia. }
  { split; [apply Z.div_pos; lia | apply Z.div_lt_upper_bound; lia]. }
  eexists _, _, _. split; [eapply convert_ok; eassumption |].
  split; [apply converted_file |].
  split; [exact Hcode |].
  rewrite splitlines_canvas by assumption.
  rewrite canvas_lines_rows, nth_error_rows by exact HN.
  rewrite Nat2Z.inj_div, Nat2Z.inj_mod. change (Z.of_nat 64) with 64.
  rewrite Hcode. reflexivity.
Qed.

(** C4.  The output is made of records, each followed by a newline; every
    record is the code of a pixel written as exactly three uppercase
    hexadecimal digits, padded with zeros on the left (0 is "000" and 4095 is
    "FFF"). *)
Theorem lines_are_three_hex_digits (input_file output_file bytes : string)
    (canvas : image) (resized : bool) (w : World) :
  fs w !! input_file = Some bytes ->
  Canvas bytes canvas resized ->
  writable w output_file = true ->
  exists w' ls,
    convert_image_to_mem input_file output_file w = (Ok tt, w')
    /\ fs w' !! output_file = Some (unlines ls)
    /\ Forall (fun l => is_record l
                        /\ exists code, 0 <= code <= 4095
                                        /\ l = format_03X code
                                        /\ hex_value l = code) ls
    /\ format_03X 0 = "000" /\ format_03X 4095 = "FFF".
Proof.
  intros Hin Hcanvas Hwr.
  destruct (canvas_well_formed _ _ _ Hcanvas) as [Hmode Hsize].
  eexists _, _. split; [eapply convert_ok; eassumption |].
  split; [apply converted_file |].
  split; [| split; reflexivity].
  unfold canvas_lines. apply List.Forall_forall. intros l Hl.
  apply in_map_iff in Hl as (code & <- & Hcode).
  pose proof (canvas_codes_12bit canvas Hmode Hsize) as Hall.
  rewrite List.Forall_forall in Hall. specialize (Hall code Hcode).
  split; [apply format_03X_record; exact Hall |].
  exists code. split; [exact Hall |].
  split; [reflexivity | apply format_03X_value; exact Hall].
Qed.

(** C8, as amended.  The output file is the sequence of the 64 x 48 = 3072
    codes of the canvas, in row-major order, one code per line. *)
Theorem output_is_3072_codes (input_file output_file bytes : string)
    (canvas : image) (resized : bool) (w : World) :
  fs w !! input_file = Some bytes ->
  Canvas bytes canvas resized ->
  writable w output_file = true ->
  exists w',
    convert_image_to_mem input_file output_file w = (Ok tt, w')
    /\ fs w' !! output_file = Some (unlines (map format_03X (canvas_codes canvas)))
    /\ length (canvas_codes canvas) = (64 * 48)%nat
    /\ (64 * 48 = 3072)%nat.
Proof.
  intros Hin Hcanvas Hwr.
  eexists. split; [eapply convert_ok; eassumption |].
  split; [apply converted_file |].
  split; [apply length_canvas_codes | reflexivity].
Qed.

End OutputFile.

(** ** Runs of the converter on concrete files *)

Section Runs.

Lemma output_has_3072_lines_witness :
  exists w' content,
    convert_image_to_mem (L := Raw.raw_lib) "in.raw" "out.mem" Raw.world0
      = (Ok tt, w')
    /\ fs w' !! "out.mem" = Some content
    /\ length (splitlines content) = 3072%nat.
Proof.
  apply (output_has_3072_lines (LL := raw_laws) "in.raw" "out.mem"
           Raw.four_pixels Raw.small_canvas true Raw.world0).
  - vm_compute. reflexivity.
  - exact small_canvas_is_canvas.
  - reflexivity.
Defined.

Lemma line_N_is_pixel_N_witness :
  exists w' content code,
    convert_image_to_mem (L := Raw.raw_lib) "full.raw" "out.mem" Raw.world0
      = (Ok tt, w')
    /\ fs w' !! "out.mem" = Some content
    /\ pixel_code (L := Raw.raw_lib) Raw.full_canvas
         (Z.of_nat 65 mod 64) (Z.of_nat 65 / 64) = Some code
    /\ nth_error (splitlines content) 65 = Some (format_03X code).
Proof.
  apply (line_N_is_pixel_N (LL := raw_laws) "full.raw" "out.mem"
           Raw.full_size Raw.full_canvas false Raw.world0 65).
  - vm_compute. reflexivity.
  - exact full_canvas_is_canvas.
  - reflexivity.
  - lia.
Defined.

Lemma lines_are_three_hex_digits_witness :
  exists w' ls,
    convert_image_to_mem (L := Raw.raw_lib) "full.raw" "out.mem" Raw.world0
      = (Ok tt, w')
    /\ fs w' !! "out.mem" = Some (unlines ls)
    /\ Forall (fun l => is_record l
                        /\ exists code, 0 <= code <= 4095
                                        /\ l = format_03X code
                                        /\ hex_value l = code) ls
    /\ format_03X 0 = "000" /\ format_03X 4095 = "FFF".
Proof.
  apply (lines_are_three_hex_digits (LL := raw_laws) "full.raw" "out.mem"
           Raw.full_size Raw.full_canvas false Raw.world0).
  - vm_compute. reflexivity.
  - exact full_canvas_is_canvas.
  - reflexivity.
Defined.

Lemma output_is_3072_codes_witness :
  exists w',
    convert_image_to_mem (L := Raw.raw_lib) "in.raw" "/tmp/out.mem" Raw.world0
      = (Ok tt, w')
    /\ fs w' !! "/tmp/out.mem"
       = Some (unlines (map format_03X
                          (canvas_codes (L := Raw.raw_lib) Raw.small_canvas)))
    /\ length (canvas_codes (L := Raw.raw_lib) Raw.small_canvas) = (64 * 48)%nat
    /\ (64 * 48 = 3072)%nat.
Proof.
  apply (output_is_3072_codes (LL := raw_laws) "in.raw" "/tmp/out.mem"
           Raw.four_pixels Raw.small_canvas true Raw.world0).
  - vm_compute. reflexivity.
  - exact small_canvas_is_canvas.
  - reflexivity.
Defined.

(** C8, as stated, fails: the output of a conversion has 3072 lines, not
    4096. *)
Lemma output_not_4096_lines :
  exists content,
    Raw.file_after
      (convert_image_to_mem (L := Raw.raw_lib) "in.raw" "out.mem" Raw.world0)
      "out.mem" = Some content
    /\ length (splitlines content) = 3072%nat
    /\ length (splitlines content) <> 4096%nat.
Proof.
  eexists. split; [vm_compute; reflexivity |].
  split; [vm_compute; reflexivity | vm_compute; discriminate].
Qed.

End Runs.

(** ** The stages before the output is opened *)

Section DecodeStage.
Context `{L : ImageLib}.

(** A successful conversion found its input, a canvas for it, and a path it
    could write to. *)
Lemma convert_ok_inv (input_file output_file : string) (w w' : World) :
  convert_image_to_mem input_file output_file w = (Ok tt, w') ->
  exists bytes canvas resized,
    fs w !! input_file = Some bytes
    /\ Canvas bytes canvas resized
    /\ writable w output_file = true.
Proof.
  unfold convert_image_to_mem, bind, Image_open, lift, with_open_w, open_w.
  destruct (fs w !! input_file) as [bytes |] eqn:Hin; [| discriminate].
  destruct (decode bytes) as [i0 | e] eqn:Hd; [| discriminate].
  destruct (im_convert i0 "RGB") as [i1 | e] eqn:Hc; [| discriminate].
  destruct (decide (im_size i1 ≠ (64, 48))) as [Hs | Hs].
  - unfold bind, print.
    destruct (im_resize i1 (64, 48) NEAREST) as [i2 | e] eqn:Hr; [| discriminate].
    simpl writable.
    destruct (writable w output_file) eqn:Hwr; [| discriminate].
    intros _. exists bytes, i2, true.
    split; [reflexivity |]. split; [| reflexivity].
    eapply canvas_resized; eassumption.
  - unfold ret, bind.
    destruct (writable w output_file) eqn:Hwr; [| discriminate].
    intros _. exists bytes, i1, false.
    split; [reflexivity |]. split; [| reflexivity].
    eapply canvas_as_is; try eassumption.
    destruct (decide (im_size i1 = (64, 48))) as [Heq | Hne];
      [exact Heq | contradiction].
Qed.

(** C9.  When the input file is missing, or decoding, the conversion to RGB
    or the resizing raises, the conversion raises the same error and every
    file is as it was: the output file is neither created nor changed. *)
Theorem decode_failure_keeps_files (input_file output_file : string)
    (w : World) (e : exn) :
  DecodeStageFails w input_file e ->
  exists w',
    convert_image_to_mem input_file output_file w = (Raise e, w')
    /\ fs w' = fs w
    /\ fs w' !! output_file = fs w !! output_file.
Proof.
  unfold convert_image_to_mem, bind, Image_open, lift.
  intros [Hin -> | bytes Hin Hd | bytes i0 Hin Hd Hc | bytes i0 i1 Hin Hd Hc Hs Hr].
  - rewrite Hin. eexists. split; [reflexivity |]. split; reflexivity.
  - rewrite Hin, Hd. eexists. split; [reflexivity |]. split; reflexivity.
  - rewrite Hin, Hd, Hc. eexists. split; [reflexivity |]. split; reflexivity.
  - rewrite Hin, Hd, Hc. rewrite decide_True by exact Hs.
    unfold bind, print. rewrite Hr.
    eexists. split; [reflexivity |]. split; reflexivity.
Qed.

(** C6.  With anything but two arguments after the program name, the script
    prints the usage message, ends with exit status 1, and leaves the files
    as they were: nothing is converted and no output file is produced. *)
Theorem usage_error (argv : list string) (w : World) :
  length argv ≠ 3%nat ->
  main argv w
  = (Raise (SystemExit 1),
     {| fs := fs w;
        stdout := stdout w ++ ["Usage: python png_to_mem.py input.png output.mem"];
        writable := writable w |})
  /\ exit_status (fst (main argv w)) = 1
  /\ fs (snd (main argv w)) = fs w.
Proof.
  intros Hlen. unfold main, bind.
  rewrite decide_True by exact Hlen.
  unfold bind, print, sys_exit, raise. simpl. auto.
Qed.

(** For an image that is 64 by 48 already, the conversion is the same
    whatever the resizing operation of the library is: it is never called. *)
Lemma no_resize_when_same_size (input_file output_file bytes : string)
    (i0 i1 : image) (w : World)
    (resize' : image -> Z * Z -> resample -> result image) :
  fs w !! input_file = Some bytes ->
  decode bytes = Ok i0 ->
  im_convert i0 "RGB" = Ok i1 ->
  im_size i1 = (64, 48) ->
  convert_image_to_mem (L := with_resize resize') input_file output_file w
  = convert_image_to_mem input_file output_file w.
Proof.
  intros Hin Hd Hc Hs.
  unfold convert_image_to_mem, bind, Image_open, lift.
  cbn [with_resize decode im_convert im_size im_getpixel image].
  rewrite Hin. cbv beta iota. rewrite Hd. cbv beta iota. rewrite Hc.
  cbv beta iota.
  rewrite !decide_False by (intros Hne; apply Hne; exact Hs).
  reflexivity.
Qed.

End DecodeStage.

(** ** Resizing and determinism *)

Section Normalizer.
Context `{LL : ImageLibLaws}.

(** C5.  An image whose size is not (64, 48) is resized to (64, 48) with the
    nearest-neighbour filter, and the resized image is what gets written; an
    image that is (64, 48) already is written as it is, without any call of
    the resizing operation. *)
Theorem resize_only_when_needed (input_file output_file bytes : string)
    (i0 i1 : image) (w : World) :
  fs w !! input_file = Some bytes ->
  decode bytes = Ok i0 ->
  im_convert i0 "RGB" = Ok i1 ->
  writable w output_file = true ->
  (im_size i1 ≠ (64, 48) ->
   forall i2, im_resize i1 (64, 48) NEAREST = Ok i2 ->
     im_size i2 = (64, 48)
     /\ convert_image_to_mem input_file output_file w
        = (Ok tt, converted input_file output_file i2 true w))
  /\ (im_size i1 = (64, 48) ->
      convert_image_to_mem input_file output_file w
      = (Ok tt, converted input_file output_file i1 false w)
      /\ forall resize',
           convert_image_to_mem (L := with_resize resize') input_file output_file w
           = convert_image_to_mem input_file output_file w).
Proof.
  intros Hin Hd Hc Hwr. split.
  - intros Hs i2 Hr.
    split; [apply resize_size in Hr as [Hsz _]; exact Hsz |].
    eapply convert_ok; [eassumption | | assumption].
    eapply canvas_resized; eassumption.
  - intros Hs. split.
    + eapply convert_ok; [eassumption | | assumption].
      eapply canvas_as_is; eassumption.
    + intros resize'. eapply no_resize_when_same_size; eassumption.
Qed.

(** C7.  The output is a function of the input image alone: two successful
    runs on the same input bytes, in any two worlds and to any two output
    paths, leave the same contents in their output files. *)
Theorem conversion_deterministic (input_file out1 out2 : string)
    (w1 w2 w1' : World) :
  fs w1 !! input_file = fs w2 !! input_file ->
  convert_image_to_mem input_file out1 w1 = (Ok tt, w1') ->
  writable w2 out2 = true ->
  exists w2' content,
    convert_image_to_mem input_file out2 w2 = (Ok tt, w2')
    /\ fs w1' !! out1 = Some content
    /\ fs w2' !! out2 = Some content.
Proof.
  intros Hsame Hrun1 Hwr2.
  destruct (convert_ok_inv _ _ _ _ Hrun1)
    as (bytes & canvas & resized & Hin1 & Hcanvas & Hwr1).
  rewrite (convert_ok _ _ _ _ _ _ Hin1 Hcanvas Hwr1) in Hrun1.
  injection Hrun1 as <-.
  rewrite Hin1 in Hsame. symmetry in Hsame.
  eexists _, _. split; [eapply convert_ok; eassumption |].
  split; apply converted_file.
Qed.

(** X13.  Running the converter a second time, on the world the first run
    left and with the same two distinct paths, succeeds and changes no
    file. *)
Lemma rerun_same_files (input_file output_file : string) (w w1 : World) :
  input_file ≠ output_file ->
  convert_image_to_mem input_file output_file w = (Ok tt, w1) ->
  exists w2,
    convert_image_to_mem input_file output_file w1 = (Ok tt, w2)
    /\ fs w2 = fs w1.
Proof.
  intros Hne Hrun.
  destruct (convert_ok_inv _ _ _ _ Hrun)
    as (bytes & canvas & resized & Hin & Hcanvas & Hwr).
  rewrite (convert_ok _ _ _ _ _ _ Hin Hcanvas Hwr) in Hrun.
  injection Hrun as <-.
  eexists. split.
  - eapply convert_ok; [| exact Hcanvas | exact Hwr].
    unfold converted. cbn [fs]. rewrite lookup_insert_ne by congruence.
    exact Hin.
  - unfold converted. cbn [fs]. apply insert_insert_eq.
Qed.

End Normalizer.

(** ** The quantizer outside its domain *)

Section Unchecked.

(** C10.  The quantizer checks nothing.  On 8-bit channels its result is in
    [0, 4095] and is written as three characters; on the red value 256, which
    is not 8-bit, the result is 4096, beyond 0xFFF, and it is written as the
    four characters "1000", as happens in the converter with a library whose
    pixels carry such a value. *)
Theorem quantizer_unchecked :
  (forall r g b, is_byte r -> is_byte g -> is_byte b ->
     0 <= rgb_to_rgb444 r g b <= 4095
     /\ String.length (format_03X (rgb_to_rgb444 r g b)) = 3%nat)
  /\ ~ is_byte 256
  /\ rgb_to_rgb444 256 0 0 = 4096
  /\ 4095 < rgb_to_rgb444 256 0 0
  /\ format_03X (rgb_to_rgb444 256 0 0) = "1000"
  /\ String.length (format_03X (rgb_to_rgb444 256 0 0)) = 4%nat
  /\ exists content,
       Raw.file_after
         (convert_image_to_mem (L := Raw.wide_lib) "full.raw" "out.mem" Raw.world0)
         "out.mem" = Some content
       /\ nth_error (splitlines content) 0 = Some "1000".
Proof.
  split.
  { intros r g b Hr Hg Hb.
    apply nibble_of_byte in Hr, Hg, Hb.
    assert (Hcode : 0 <= rgb_to_rgb444 r g b <= 4095)
      by (rewrite rgb_to_rgb444_sum by assumption; lia).
    split; [exact Hcode |]. apply format_03X_record. exact Hcode. }
  split; [unfold is_byte; lia |].
  split; [reflexivity |].
  split; [reflexivity |].
  split; [reflexivity |].
  split; [reflexivity |].
  eexists. split; vm_compute; reflexivity.
Qed.

End Unchecked.

(** ** More runs on concrete files *)

Section MoreRuns.

Lemma resize_only_when_needed_witness :
  (Raw.rsize Raw.small_canvas = (64, 48)
   /\ convert_image_to_mem (L := Raw.raw_lib) "in.raw" "out.mem" Raw.world0
      = (Ok tt, converted (L := Raw.raw_lib) "in.raw" "out.mem"
                  Raw.small_canvas true Raw.world0))
  /\ (convert_image_to_mem (L := Raw.raw_lib) "full.raw" "out.mem" Raw.world0
      = (Ok tt, converted (L := Raw.raw_lib) "full.raw" "out.mem"
                  Raw.full_canvas false Raw.world0)
      /\ forall resize',
           convert_image_to_mem (L := with_resize (L := Raw.raw_lib) resize')
             "full.raw" "out.mem" Raw.world0
           = convert_image_to_mem (L := Raw.raw_lib) "full.raw" "out.mem"
               Raw.world0).
Proof.
  assert (Hsmall : fs Raw.world0 !! "in.raw" = Some Raw.four_pixels)
    by (vm_compute; reflexivity).
  assert (Hfull : fs Raw.world0 !! "full.raw" = Some Raw.full_size)
    by (vm_compute; reflexivity).
  destruct (resize_only_when_needed (LL := raw_laws) "in.raw" "out.mem"
              Raw.four_pixels (Raw.decoded Raw.four_pixels)
              (Raw.in_rgb Raw.four_pixels) Raw.world0
              Hsmall eq_refl eq_refl eq_refl) as [Hresized _].
  destruct (resize_only_when_needed (LL := raw_laws) "full.raw" "out.mem"
              Raw.full_size (Raw.decoded Raw.full_size)
              (Raw.in_rgb Raw.full_size) Raw.world0
              Hfull eq_refl eq_refl eq_refl) as [_ Hsame].
  split.
  - apply Hresized; [simpl; intros [=] | reflexivity].
  - apply Hsame. reflexivity.
Defined.

Lemma conversion_deterministic_witness :
  exists w2' content,
    convert_image_to_mem (L := Raw.raw_lib) "in.raw" "b.mem" Raw.world1
      = (Ok tt, w2')
    /\ fs (converted (L := Raw.raw_lib) "in.raw" "a.mem" Raw.small_canvas true
             Raw.world0) !! "a.mem" = Some content
    /\ fs w2' !! "b.mem" = Some content.
Proof.
  apply (conversion_deterministic (LL := raw_laws) "in.raw" "a.mem" "b.mem"
           Raw.world0 Raw.world1).
  - vm_compute. reflexivity.
  - apply (convert_ok (LL := raw_laws)) with (bytes := Raw.four_pixels).
    + vm_compute. reflexivity.
    + exact small_canvas_is_canvas.
    + reflexivity.
  - reflexivity.
Defined.

Lemma decode_failure_keeps_files_witness :
  exists w',
    convert_image_to_mem (L := Raw.raw_lib) "bad.raw" "full.raw" Raw.world0
      = (Raise (ImageError "cannot identify image file"), w')
    /\ fs w' = fs Raw.world0
    /\ fs w' !! "full.raw" = fs Raw.world0 !! "full.raw".
Proof.
  apply (decode_failure_keeps_files (L := Raw.raw_lib) "bad.raw" "full.raw").
  apply fails_decode with (bytes := "x").
  - vm_compute. reflexivity.
  - reflexivity.
Defined.

Lemma usage_error_witness :
  main (L := Raw.raw_lib) ["png_to_mem.py"; "in.raw"] Raw.world0
  = (Raise (SystemExit 1),
     {| fs := fs Raw.world0;
        stdout := stdout Raw.world0
                  ++ ["Usage: python png_to_mem.py input.png output.mem"];
        writable := writable Raw.world0 |})
  /\ exit_status (fst (main (L := Raw.raw_lib) ["png_to_mem.py"; "in.raw"]
                         Raw.world0)) = 1
  /\ fs (snd (main (L := Raw.raw_lib) ["png_to_mem.py"; "in.raw"] Raw.world0))
     = fs Raw.world0.
Proof.
  apply (usage_error (L := Raw.raw_lib) ["png_to_mem.py"; "in.raw"] Raw.world0).
  simpl. lia.
Defined.

End MoreRuns.

(** ** The quantizer on arbitrary integers *)

Section QuantizerBits.

(** X1.  The quantizer masks nothing.  On any integers, the bits of the code
    from bit 8 upwards are those of [r >> 4], or-ed with whatever green and
    blue carry above their eight bits ([g >> 8] and [b >> 12]); the lowest
    four bits are those of [b >> 4] alone. *)
Theorem quantizer_fields_overlap (r g b : Z) :
  Z.shiftr (rgb_to_rgb444 r g b) 8
    = Z.lor (Z.lor (Z.shiftr r 4) (Z.shiftr g 8)) (Z.shiftr b 12)
  /\ Z.land (rgb_to_rgb444 r g b) 15 = Z.land (Z.shiftr b 4) 15.
Proof.
  unfold rgb_to_rgb444. cbv zeta. split.
  - rewrite !Z.shiftr_lor.
    rewrite Z.shiftr_shiftl_l by lia.
    rewrite Z.shiftr_shiftl_r by lia.
    rewrite !Z.shiftr_shiftr by lia.
    change (8 - 8) with 0. rewrite Z.shiftl_0_r. reflexivity.
  - rewrite !Z.land_lor_distr_l.
    rewrite (land_shiftl_low (Z.shiftr r 4) 15 8) by lia.
    rewrite (land_shiftl_low (Z.shiftr g 4) 15 4) by lia.
    reflexivity.
Qed.

(** X2.  The code is negative exactly when some channel is negative. *)
Theorem quantizer_negative_iff (r g b : Z) :
  rgb_to_rgb444 r g b < 0 <-> r < 0 \/ g < 0 \/ b < 0.
Proof.
  unfold rgb_to_rgb444. cbv zeta.
  rewrite !Z.lor_neg, !Z.shiftl_neg, !Z.shiftr_neg. tauto.
Qed.

(** X3.  Two 8-bit pixels get the same code exactly when their channels agree
    in the top four bits: the low four bits of every channel are what is
    lost, and nothing else. *)
Theorem quantizer_collisions (r g b r' g' b' : Z) :
  is_byte r -> is_byte g -> is_byte b ->
  is_byte r' -> is_byte g' -> is_byte b' ->
  (rgb_to_rgb444 r g b = rgb_to_rgb444 r' g' b'
   <-> r / 16 = r' / 16 /\ g / 16 = g' / 16 /\ b / 16 = b' / 16).
Proof.
  intros Hr Hg Hb Hr' Hg' Hb'.
  apply nibble_of_byte in Hr, Hg, Hb, Hr', Hg', Hb'.
  rewrite !rgb_to_rgb444_sum by assumption. lia.
Qed.

Lemma quantizer_collisions_witness :
  rgb_to_rgb444 31 32 47 = rgb_to_rgb444 16 47 32
  <-> 31 / 16 = 16 / 16 /\ 32 / 16 = 47 / 16 /\ 47 / 16 = 32 / 16.
Proof.
  apply (quantizer_collisions 31 32 47 16 47 32); unfold is_byte; lia.
Defined.

(** X4.  Every 12-bit code is the code of an 8-bit pixel, the one whose
    channels are the three nibbles of the code shifted back by four bits. *)
Theorem quantizer_onto (c : Z) :
  0 <= c <= 4095 ->
  is_byte (16 * (c / 256))
  /\ is_byte (16 * (c / 16 mod 16))
  /\ is_byte (16 * (c mod 16))
  /\ rgb_to_rgb444 (16 * (c / 256)) (16 * (c / 16 mod 16)) (16 * (c mod 16)) = c.
Proof.
  intros Hc.
  assert (H1 : 0 <= c / 256 < 16).
  { split; [apply Z.div_pos; lia | apply Z.div_lt_upper_bound; lia]. }
  assert (H2 : 0 <= c / 16 mod 16 < 16) by (apply Z.mod_pos_bound; lia).
  assert (H3 : 0 <= c mod 16 < 16) by (apply Z.mod_pos_bound; lia).
  assert (Hdiv : forall v, 16 * v / 16 = v).
  { intros v. rewrite Z.mul_comm. apply Z.div_mul. lia. }
  unfold is_byte. repeat split; try lia.
  rewrite rgb_to_rgb444_sum by (rewrite Hdiv; lia).
  rewrite !Hdiv.
  pose proof (Z.div_mod c 16). pose proof (Z.div_mod (c / 16) 16).
  replace (c / 256) with (c / 16 / 16) by (rewrite Z.div_div by lia; reflexivity).
  lia.
Qed.

Lemma quantizer_onto_witness :
  is_byte (16 * (2748 / 256))
  /\ is_byte (16 * (2748 / 16 mod 16))
  /\ is_byte (16 * (2748 mod 16))
  /\ rgb_to_rgb444 (16 * (2748 / 256)) (16 * (2748 / 16 mod 16))
       (16 * (2748 mod 16)) = 2748.
Proof. apply (quantizer_onto 2748). lia. Defined.

End QuantizerBits.

(** ** The format [03X] on every non-negative number *)

Section FormatAll.

Lemma length_append (s1 s2 : string) :
  String.length (s1 +:+ s2) = (String.length s1 + String.length s2)%nat.
Proof.
  induction s1 as [| c s1 IH]; [reflexivity |].
  rewrite append_cons. simpl. now rewrite IH.
Qed.

Lemma all_chars_append (p : ascii -> bool) (s1 s2 : string) :
  all_chars p (s1 +:+ s2) = all_chars p s1 && all_chars p s2.
Proof.
  induction s1 as [| c s1 IH]; [reflexivity |].
  rewrite append_cons. simpl. rewrite IH. apply andb_assoc.
Qed.

Lemma length_zeros (k : nat) : String.length (zeros k) = k.
Proof. induction k as [| k IH]; simpl; [reflexivity | now rewrite IH]. Qed.

Lemma zeros_upper_hex (k : nat) : all_chars is_upper_hex (zeros k) = true.
Proof. induction k as [| k IH]; simpl; [reflexivity | exact IH]. Qed.

Lemma hex_value_zeros (k : nat) (s : string) :
  hex_value_aux (zeros k +:+ s) 0 = hex_value_aux s 0.
Proof.
  induction k as [| k IH]; [reflexivity |].
  simpl zeros. rewrite append_cons. simpl hex_value_aux. exact IH.
Qed.

Lemma hex_upper_aux_upper_hex (fuel : nat) :
  forall n acc, 0 <= n -> all_chars is_upper_hex acc = true ->
    all_chars is_upper_hex (hex_upper_aux fuel n acc) = true.
Proof.
  induction fuel as [| k IH]; intros n acc Hn Hacc; [exact Hacc |].
  assert (Hmod : 0 <= n mod 16 < 16) by (apply Z.mod_pos_bound; lia).
  assert (Hacc' : all_chars is_upper_hex (String (hex_digit (n mod 16)) acc) = true).
  { simpl. rewrite hex_digit_is_upper_hex by assumption. exact Hacc. }
  simpl hex_upper_aux.
  destruct (Z.eqb_spec (n / 16) 0) as [_ | _]; [exact Hacc' |].
  apply IH; [apply Z.div_pos; lia | exact Hacc'].
Qed.

Lemma digit_value_bound (c : ascii) :
  is_upper_hex c = true -> 0 <= digit_value c <= 15.
Proof.
  unfold is_upper_hex, digit_value. cbv zeta.
  generalize (nat_of_ascii c). intros k Hk.
  apply orb_prop in Hk as [Hk | Hk]; apply andb_prop in Hk as [H1 H2];
    apply Nat.leb_le in H1, H2;
    destruct (Z.leb_spec (Z.of_nat k) 57); lia.
Qed.

(** Three hexadecimal digits denote a number below 4096. *)
Lemma hex_value_three (s : string) :
  String.length s = 3%nat -> all_chars is_upper_hex s = true ->
  hex_value s <= 4095.
Proof.
  destruct s as [| c1 [| c2 [| c3 [| c4 s]]]]; try discriminate.
  intros _ Hs. simpl in Hs.
  apply andb_prop in Hs as [H1 Hs]. apply andb_prop in Hs as [H2 Hs].
  apply andb_prop in Hs as [H3 _].
  apply digit_value_bound in H1, H2, H3.
  unfold hex_value. simpl. lia.
Qed.

(** X5.  For every non-negative number, the text written for it consists of
    characters of [[0-9A-F]] only and reads back, as a hexadecimal numeral,
    as that number: padding changes nothing and no digit is dropped, however
    large the number. *)
Theorem format_roundtrip (n : Z) :
  0 <= n ->
  all_chars is_upper_hex (format_03X n) = true
  /\ hex_value (format_03X n) = n.
Proof.
  intros Hn. unfold format_03X.
  destruct (Z.ltb_spec n 0) as [Hneg | _]; [lia |].
  unfold zfill. split.
  - rewrite all_chars_append, zeros_upper_hex. simpl.
    apply hex_upper_aux_upper_hex; [exact Hn | reflexivity].
  - unfold hex_value. rewrite hex_value_zeros.
    apply hex_value_hex_upper. exact Hn.
Qed.

Lemma format_roundtrip_witness :
  all_chars is_upper_hex (format_03X 1048575) = true
  /\ hex_value (format_03X 1048575) = 1048575.
Proof. apply (format_roundtrip 1048575). lia. Defined.

(** X6.  The width 3 is a minimum, not a limit: the text of a non-negative
    number has at least three characters, and exactly three precisely when
    the number is at most 4095. *)
Theorem format_width (n : Z) :
  0 <= n ->
  (3 <= String.length (format_03X n))%nat
  /\ (String.length (format_03X n) = 3%nat <-> n <= 4095).
Proof.
  intros Hn. split.
  - unfold format_03X.
    destruct (Z.ltb_spec n 0) as [Hneg | _]; [lia |].
    unfold zfill. rewrite length_append, length_zeros. lia.
  - split.
    + intros Hlen.
      assert (Hval : hex_value (format_03X n) <= 4095).
      { apply hex_value_three; [exact Hlen |].
        unfold format_03X.
        destruct (Z.ltb_spec n 0) as [Hneg | _]; [lia |].
        unfold zfill. rewrite all_chars_append, zeros_upper_hex. simpl.
        apply hex_upper_aux_upper_hex; [exact Hn | reflexivity]. }
      assert (Hrt : hex_value (format_03X n) = n).
      { unfold format_03X.
        destruct (Z.ltb_spec n 0) as [Hneg | _]; [lia |].
        unfold zfill, hex_value. rewrite hex_value_zeros.
        apply hex_value_hex_upper. exact Hn. }
      lia.
    + intros Hle. apply format_03X_record. lia.
Qed.

Lemma format_width_witness :
  (3 <= String.length (format_03X 65280))%nat
  /\ (String.length (format_03X 65280) = 3%nat <-> 65280 <= 4095).
Proof. apply (format_width 65280). lia. Defined.

End FormatAll.

(** ** Every way a conversion can end *)

Section Outcomes.
Context `{L : ImageLib}.



(** The world an output path that cannot be opened leaves. *)
Lemma convert_unwritable (input_file output_file bytes : string)
    (canvas : image) (resized : bool) (w : World) :
  fs w !! input_file = Some bytes ->
  Canvas bytes canvas resized ->
  writable w output_file = false ->
  convert_image_to_mem input_file output_file w
  = (Raise (OSError output_file),
     {| fs := fs w;
        stdout := stdout w ++ resize_notice input_file resized;
        writable := writable w |}).
Proof.
  intros Hin Hcanvas Hwr.
  unfold convert_image_to_mem, bind, Image_open, lift, with_open_w, open_w.
  destruct Hcanvas as [i0 i1 Hd Hc Hs | i0 i1 i2 Hd Hc Hs Hr];
    rewrite Hin, Hd, Hc.
  - rewrite decide_False by (intros Hne; apply Hne; exact Hs).
    unfold ret, bind. rewrite Hwr. simpl. rewrite app_nil_r. now destruct w.
  - rewrite decide_True by exact Hs.
    unfold bind, print. rewrite Hr. simpl writable. rewrite Hwr. reflexivity.
Qed.

(** With two arguments the script is the conversion of the first into the
    second. *)
Lemma main_two_arguments (prog input_file output_file : string) (w : World) :
  main [prog; input_file; output_file] w
  = convert_image_to_mem input_file output_file w.
Proof.
  unfold main, bind at 1.
  rewrite decide_False by (intros Hne; apply Hne; reflexivity).
  reflexivity.
Qed.

(** X8.  When the image is fine but the output path cannot be opened for
    writing, the script ends with the error of [open] and exit status 1;
    every file is as it was, the usage message is not printed, and the only
    thing printed is the resize notice when the image had to be resized. *)
Theorem unwritable_output (prog input_file output_file bytes : string)
    (canvas : image) (resized : bool) (w : World) :
  fs w !! input_file = Some bytes ->
  Canvas bytes canvas resized ->
  writable w output_file = false ->
  main [prog; input_file; output_file] w
  = (Raise (OSError output_file),
     {| fs := fs w;
        stdout := stdout w ++ resize_notice input_file resized;
        writable := writable w |})
  /\ exit_status (fst (main [prog; input_file; output_file] w)) = 1.
Proof.
  intros Hin Hcanvas Hwr.
  rewrite main_two_arguments.
  rewrite (convert_unwritable _ _ _ _ _ _ Hin Hcanvas Hwr).
  split; reflexivity.
Qed.

End Outcomes.

(** ** What a run changes *)

Section Effects.
Context `{LL : ImageLibLaws}.

(** X9.  A successful conversion changes one file only, its output: the
    output file exists afterwards, every other path holds what it held, the
    paths that can be written are the same, and what was printed is only
    added to. *)
Theorem only_output_changes (input_file output_file : string) (w w' : World) :
  convert_image_to_mem input_file output_file w = (Ok tt, w') ->
  is_Some (fs w' !! output_file)
  /\ (forall p, p ≠ output_file -> fs w' !! p = fs w !! p)
  /\ writable w' = writable w
  /\ exists resized,
       stdout w' = (stdout w ++ notices input_file output_file resized)%list.
Proof.
  intros Hrun.
  destruct (convert_ok_inv _ _ _ _ Hrun)
    as (bytes & canvas & resized & Hin & Hcanvas & Hwr).
  rewrite (convert_ok _ _ _ _ _ _ Hin Hcanvas Hwr) in Hrun.
  injection Hrun as <-. unfold converted. cbn [fs stdout writable].
  split; [rewrite lookup_insert_eq; eauto |].
  split; [intros p Hp; apply lookup_insert_ne; congruence |].
  split; [reflexivity |]. exists resized. reflexivity.
Qed.



(** X7.  What a reader of the output gets back: line [N], read as a
    hexadecimal numeral, holds in its three digits the top four bits of the
    red, green and blue channels of the canvas pixel in row [N / 64] and
    column [N mod 64]. *)
Theorem line_holds_top_nibbles (input_file output_file bytes : string)
    (canvas : image) (resized : bool) (w : World) (N : nat) :
  fs w !! input_file = Some bytes ->
  Canvas bytes canvas resized ->
  writable w output_file = true ->
  (N < 3072)%nat ->
  exists w' content l r g b,
    convert_image_to_mem input_file output_file w = (Ok tt, w')
    /\ fs w' !! output_file = Some content
    /\ nth_error (splitlines content) N = Some l
    /\ im_getpixel canvas (Z.of_nat N mod 64, Z.of_nat N / 64) = Ok [r; g; b]
    /\ hex_value l / 256 = r / 16
    /\ hex_value l / 16 mod 16 = g / 16
    /\ hex_value l mod 16 = b / 16.
Proof.
  intros Hin Hcanvas Hwr HN.
  destruct (canvas_well_formed _ _ _ Hcanvas) as [Hmode Hsize].
  assert (Hx : 0 <= Z.of_nat N mod 64 < 64) by (apply Z.mod_pos_bound; lia).
  assert (Hy : 0 <= Z.of_nat N / 64 < 48).
  { split; [apply Z.div_pos; lia | apply Z.div_lt_upper_bound; lia]. }
  destruct (getpixel_rgb canvas (Z.of_nat N mod 64) (Z.of_nat N / 64) Hmode)
    as (r & g & b & Hpx & Hr & Hg & Hb);
    [rewrite Hsize; exact Hx | rewrite Hsize; exact Hy |].
  apply nibble_of_byte in Hr, Hg, Hb.
  assert (Hcode : pixel_code canvas (Z.of_nat N mod 64) (Z.of_nat N / 64)
                  = Some (rgb_to_rgb444 r g b))
    by (unfold pixel_code; rewrite Hpx; reflexivity).
  exists (converted input_file output_file canvas resized w),
         (unlines (canvas_lines canvas)),
         (format_03X (rgb_to_rgb444 r g b)), r, g, b.
  split; [eapply convert_ok; eassumption |].
  split; [apply converted_file |].
  split.
  { rewrite splitlines_canvas by assumption.
    rewrite canvas_lines_rows, nth_error_rows by exact HN.
    rewrite Nat2Z.inj_div, Nat2Z.inj_mod. change (Z.of_nat 64) with 64.
    rewrite Hcode. reflexivity. }
  split; [exact Hpx |].
  rewrite format_03X_value by (rewrite rgb_to_rgb444_sum by assumption; lia).
  rewrite rgb_to_rgb444_sum by assumption.
  set (R := r / 16) in *. set (G := g / 16) in *. set (B := b / 16) in *.
  assert (H8 : (R * 256 + G * 16 + B) / 256 = R).
  { symmetry. apply Z.div_unique with (r := G * 16 + B); lia. }
  assert (H4 : (R * 256 + G * 16 + B) / 16 = R * 16 + G).
  { symmetry. apply Z.div_unique with (r := B); lia. }
  assert (H4m : (R * 16 + G) mod 16 = G).
  { symmetry. apply Z.mod_unique with (q := R); lia. }
  assert (H0 : (R * 256 + G * 16 + B) mod 16 = B).
  { symmetry. apply Z.mod_unique with (q := R * 16 + G); lia. }
  rewrite H8, H4, H4m, H0. auto.
Qed.

End Effects.

(** ** A failure in the middle of the loops *)

Section PartialOutput.
Context `{L : ImageLib}.

(** A loop whose turns append to [f] until one raises, having appended [p]
    itself: what the earlier turns and this one wrote stays in the file. *)
Lemma for_each_appends_until {A} (f : file) (g : A -> string)
    (body : A -> M unit) (l1 : list A) (a : A) (l2 : list A) (e : exn)
    (p : string) :
  (forall a', In a' l1 -> forall w c, fs w !! f = Some c ->
     body a' w = (Ok tt, set_fs (<[f := c +:+ g a']> (fs w)) w)) ->
  (forall w c, fs w !! f = Some c ->
     body a w = (Raise e, set_fs (<[f := c +:+ p]> (fs w)) w)) ->
  forall w c, fs w !! f = Some c ->
    for_each (l1 ++ a :: l2)%list body w
    = (Raise e, set_fs (<[f := c +:+ join (map g l1) +:+ p]> (fs w)) w).
Proof.
  induction l1 as [| a1 l1 IH]; intros Hbody Hfail w c Hc.
  - simpl. unfold bind. rewrite (Hfail w c Hc). reflexivity.
  - simpl. unfold bind at 1.
    rewrite (Hbody a1 (or_introl eq_refl) w c Hc).
    rewrite (IH (fun a' Ha' => Hbody a' (or_intror Ha')) Hfail _ (c +:+ g a1)).
    + rewrite set_fs_set_fs. cbn [fs set_fs].
      rewrite insert_insert_eq, !append_assoc. reflexivity.
    + cbn [fs set_fs]. apply lookup_insert_eq.
Qed.

Lemma range_split (k n : nat) :
  (k < n)%nat ->
  range n = (range k ++ Z.of_nat k :: map Z.of_nat (seq (S k) (n - S k)))%list.
Proof.
  intros Hk. unfold range.
  replace n with (k + S (n - S k))%nat at 1 by lia.
  rewrite seq_app, map_app. reflexivity.
Qed.

Lemma firstn_range (k n : nat) : (k <= n)%nat -> firstn k (range n) = range k.
Proof.
  intros Hk. destruct (Nat.eq_dec k n) as [-> | Hne].
  - rewrite <- (length_range n) at 1. apply firstn_all.
  - rewrite (range_split k n) by lia.
    rewrite firstn_app, length_range, Nat.sub_diag, firstn_O, app_nil_r.
    rewrite <- (length_range k) at 1. apply firstn_all.
Qed.

(** The first [N] elements in row-major order: the full rows before row
    [N / cols], then the first [N mod cols] elements of that row. *)
Lemma firstn_rows {C} (h : Z -> Z -> C) (cols rows N : nat) :
  (N < rows * cols)%nat ->
  firstn N (flat_map (fun y => map (h y) (range cols)) (range rows))
  = (flat_map (fun y => map (h y) (range cols)) (range (N / cols))
     ++ map (h (Z.of_nat (N / cols))) (range (N mod cols)))%list.
Proof.
  intros HN.
  assert (Hcols : cols <> 0%nat) by lia.
  assert (Hy : (N / cols < rows)%nat)
    by (apply Nat.Div0.div_lt_upper_bound; lia).
  assert (Hx : (N mod cols < cols)%nat) by (apply Nat.mod_upper_bound; exact Hcols).
  pose proof (Nat.div_mod_eq N cols) as HNeq.
  rewrite (range_split (N / cols) rows Hy).
  rewrite flat_map_app. cbn [flat_map].
  rewrite firstn_app, length_rows, length_range.
  rewrite firstn_all2 by (rewrite length_rows, length_range; lia).
  f_equal.
  replace (N - N / cols * cols)%nat with (N mod cols)%nat by lia.
  rewrite firstn_app, length_map, length_range.
  replace (N mod cols - cols)%nat with 0%nat by lia.
  rewrite firstn_O, app_nil_r, firstn_map, firstn_range by lia.
  reflexivity.
Qed.

Lemma pixel_outcome_ok (img : image) (x y c : Z) :
  pixel_outcome img x y = Ok c ->
  pixel_code img x y = Some c
  /\ exists r g b, im_getpixel img (x, y) = Ok [r; g; b]
                   /\ c = rgb_to_rgb444 r g b.
Proof.
  unfold pixel_outcome, pixel_code.
  destruct (im_getpixel img (x, y)) as [[| r [| g [| b [| v px]]]] | e'];
    try discriminate.
  intros [= <-]. split; [reflexivity | eauto].
Qed.

(** The nested loops, when the pixels before the [N]-th (in row-major order)
    are fine and the [N]-th raises: the file holds the first [N] lines. *)
Lemma write_canvas_until (img : image) (f : file) (N : nat) (e : exn) :
  (N < 3072)%nat ->
  (forall k, (k < N)%nat ->
     exists c, pixel_outcome img (Z.of_nat (k mod 64)) (Z.of_nat (k / 64)) = Ok c) ->
  pixel_outcome img (Z.of_nat (N mod 64)) (Z.of_nat (N / 64)) = Raise e ->
  forall w c0, fs w !! f = Some c0 ->
    for_each (range 48) (fun y =>
      for_each (range 64) (fun x =>
        px <- lift (im_getpixel img (x, y)) ;;
        match px with
        | [r; g; b] =>
            let rgb444 := rgb_to_rgb444 r g b in
            file_write f (format_03X rgb444 +:+ newline)
        | _ => raise (ValueError "unpack")
        end)) w
    = (Raise e,
       set_fs (<[f := c0 +:+ unlines (firstn N (canvas_lines img))]> (fs w)) w).
Proof.
  intros HN Hbefore Hfail w c0 Hc0.
  assert (Hy : (N / 64 < 48)%nat) by (apply Nat.Div0.div_lt_upper_bound; lia).
  assert (Hx : (N mod 64 < 64)%nat) by (apply Nat.mod_upper_bound; lia).
  pose proof (Nat.div_mod_eq N 64) as HNeq.
  assert (Hturn : forall x y w1 c1 c,
            pixel_outcome img x y = Ok c -> fs w1 !! f = Some c1 ->
            (px <- lift (im_getpixel img (x, y)) ;;
             match px with
             | [r; g; b] =>
                 let rgb444 := rgb_to_rgb444 r g b in
                 file_write f (format_03X rgb444 +:+ newline)
             | _ => raise (ValueError "unpack")
             end) w1
            = (Ok tt,
               set_fs (<[f := c1 +:+ (format_03X (default 0 (pixel_code img x y))
                                       +:+ newline)]> (fs w1)) w1)).
  { intros x y w1 c1 c Hok Hc1.
    apply pixel_outcome_ok in Hok as (Hcode & r & g & b & Hpx & ->).
    unfold bind, lift. rewrite Hpx, Hcode. cbv zeta.
    unfold file_write. rewrite Hc1. reflexivity. }
  rewrite canvas_lines_rows, firstn_rows by exact HN.
  rewrite unlines_app, <- join_unlines_rows.
  rewrite (range_split (N / 64) 48 Hy).
  apply for_each_appends_until; [| | exact Hc0].
  - (* the rows before the failing one are written in full *)
    intros y Hyin w1 c1 Hc1. apply in_range in Hyin.
    rewrite <- join_lines, map_map.
    apply for_each_appends; [| exact Hc1].
    intros x Hxin w2 c2 Hc2. apply in_range in Hxin.
    destruct (Hbefore (Z.to_nat y * 64 + Z.to_nat x)%nat) as [c Hok]; [lia |].
    replace ((Z.to_nat y * 64 + Z.to_nat x) mod 64)%nat with (Z.to_nat x) in Hok
      by (rewrite Nat.add_comm, Nat.Div0.mod_add, Nat.mod_small; lia).
    replace ((Z.to_nat y * 64 + Z.to_nat x) / 64)%nat with (Z.to_nat y) in Hok
      by (rewrite Nat.div_add_l, Nat.div_small; lia).
    rewrite !Z2Nat.id in Hok by lia.
    eapply Hturn; eassumption.
  - (* the failing row is written up to the failing pixel *)
    intros w1 c1 Hc1.
    rewrite (range_split (N mod 64) 64 Hx).
    rewrite <- join_lines, map_map.
    rewrite <- (append_nil_r (join _)).
    apply for_each_appends_until; [| | exact Hc1].
    + intros x Hxin w2 c2 Hc2. apply in_range in Hxin.
      destruct (Hbefore (N / 64 * 64 + Z.to_nat x)%nat) as [c Hok]; [lia |].
      replace ((N / 64 * 64 + Z.to_nat x) mod 64)%nat with (Z.to_nat x) in Hok
        by (rewrite Nat.add_comm, Nat.Div0.mod_add, Nat.mod_small; lia).
      replace ((N / 64 * 64 + Z.to_nat x) / 64)%nat with (N / 64)%nat in Hok
        by (rewrite Nat.div_add_l, (Nat.div_small (Z.to_nat x)); lia).
      rewrite Z2Nat.id in Hok by lia.
      eapply Hturn; eassumption.
    + intros w2 c2 Hc2.
      rewrite append_nil_r, insert_id, set_fs_id by exact Hc2.
      unfold pixel_outcome in Hfail. unfold bind, lift.
      destruct (im_getpixel img (Z.of_nat (N mod 64), Z.of_nat (N / 64)))
        as [[| r [| g [| b [| v px]]]] | e'];
        try discriminate; injection Hfail as <-; reflexivity.
Qed.

(** X11.  The output file is opened, and so emptied, before the first pixel
    is read, and nothing undoes a write.  So when reading or unpacking the
    [N]-th pixel (in row-major order) raises after the earlier ones went
    well, the conversion raises that error and leaves an output file that
    holds exactly the first [N] lines; the confirmation is not printed. *)
Theorem failure_leaves_partial_output (input_file output_file bytes : string)
    (canvas : image) (resized : bool) (w : World) (N : nat) (e : exn) :
  fs w !! input_file = Some bytes ->
  Canvas bytes canvas resized ->
  writable w output_file = true ->
  (N < 3072)%nat ->
  (forall k, (k < N)%nat ->
     exists c, pixel_outcome canvas (Z.of_nat k mod 64) (Z.of_nat k / 64) = Ok c) ->
  pixel_outcome canvas (Z.of_nat N mod 64) (Z.of_nat N / 64) = Raise e ->
  convert_image_to_mem input_file output_file w
  = (Raise e,
     {| fs := <[output_file := unlines (firstn N (canvas_lines canvas))]> (fs w);
        stdout := stdout w ++ resize_notice input_file resized;
        writable := writable w |}).
Proof.
  intros Hin Hcanvas Hwr HN Hbefore Hfail.
  assert (Hbefore' : forall k, (k < N)%nat ->
            exists c, pixel_outcome canvas (Z.of_nat (k mod 64))
                        (Z.of_nat (k / 64)) = Ok c).
  { intros k Hk. rewrite Nat2Z.inj_div, Nat2Z.inj_mod. apply Hbefore, Hk. }
  assert (Hfail' : pixel_outcome canvas (Z.of_nat (N mod 64))
                     (Z.of_nat (N / 64)) = Raise e).
  { rewrite Nat2Z.inj_div, Nat2Z.inj_mod. exact Hfail. }
  unfold convert_image_to_mem.
  destruct Hcanvas as [i0 i1 Hd Hc Hs | i0 i1 i2 Hd Hc Hs Hr];
    unfold bind at 1; unfold Image_open; rewrite Hin, Hd;
    unfold bind at 1; unfold lift at 1; rewrite Hc;
    unfold bind at 1.
  - rewrite decide_False by (intros Hne; apply Hne; exact Hs).
    unfold ret at 1. unfold bind at 1. unfold with_open_w, bind at 1.
    unfold open_w. rewrite Hwr.
    rewrite (write_canvas_until i1 output_file N e HN Hbefore' Hfail' _ "")
      by (cbn [fs set_fs]; apply lookup_insert_eq).
    unfold set_fs. cbn [fs stdout writable resize_notice].
    rewrite insert_insert_eq, app_nil_r. reflexivity.
  - rewrite decide_True by exact Hs.
    unfold bind at 1. unfold print at 1. unfold lift at 1. rewrite Hr.
    unfold bind at 1. unfold with_open_w, bind at 1.
    unfold open_w. cbn [writable]. rewrite Hwr.
    rewrite (write_canvas_until i2 output_file N e HN Hbefore' Hfail' _ "")
      by (cbn [fs set_fs]; apply lookup_insert_eq).
    unfold set_fs. cbn [fs stdout writable resize_notice].
    rewrite insert_insert_eq. reflexivity.
Qed.

End PartialOutput.

(** ** Runs that end in other ways *)

Section OtherRuns.

Lemma unwritable_output_witness :
  main (L := Raw.raw_lib) ["png_to_mem.py"; "in.raw"; "/readonly.mem"] Raw.world0
  = (Raise (OSError "/readonly.mem"),
     {| fs := fs Raw.world0;
        stdout := stdout Raw.world0 ++ resize_notice "in.raw" true;
        writable := writable Raw.world0 |})
  /\ exit_status
       (fst (main (L := Raw.raw_lib)
               ["png_to_mem.py"; "in.raw"; "/readonly.mem"] Raw.world0)) = 1.
Proof.
  apply (unwritable_output (L := Raw.raw_lib) "png_to_mem.py" "in.raw"
           "/readonly.mem" Raw.four_pixels Raw.small_canvas true Raw.world0).
  - vm_compute. reflexivity.
  - exact small_canvas_is_canvas.
  - reflexivity.
Defined.

Lemma only_output_changes_witness :
  is_Some (fs (converted (L := Raw.raw_lib) "in.raw" "out.mem"
                 Raw.small_canvas true Raw.world0) !! "out.mem")
  /\ (forall p, p ≠ "out.mem" ->
        fs (converted (L := Raw.raw_lib) "in.raw" "out.mem"
              Raw.small_canvas true Raw.world0) !! p
        = fs Raw.world0 !! p)
  /\ writable (converted (L := Raw.raw_lib) "in.raw" "out.mem"
                 Raw.small_canvas true Raw.world0)
     = writable Raw.world0
  /\ exists resized,
       stdout (converted (L := Raw.raw_lib) "in.raw" "out.mem"
                 Raw.small_canvas true Raw.world0)
       = (stdout Raw.world0 ++ notices "in.raw" "out.mem" resized)%list.
Proof.
  apply (only_output_changes (LL := raw_laws) "in.raw" "out.mem" Raw.world0).
  apply (convert_ok (LL := raw_laws)) with (bytes := Raw.four_pixels).
  - vm_compute. reflexivity.
  - exact small_canvas_is_canvas.
  - reflexivity.
Defined.



Lemma line_holds_top_nibbles_witness :
  exists w' content l r g b,
    convert_image_to_mem (L := Raw.raw_lib) "full.raw" "out.mem" Raw.world0
      = (Ok tt, w')
    /\ fs w' !! "out.mem" = Some content
    /\ nth_error (splitlines content) 1 = Some l
    /\ im_getpixel (ImageLib := Raw.raw_lib) Raw.full_canvas
         (Z.of_nat 1 mod 64, Z.of_nat 1 / 64) = Ok [r; g; b]
    /\ hex_value l / 256 = r / 16
    /\ hex_value l / 16 mod 16 = g / 16
    /\ hex_value l mod 16 = b / 16.
Proof.
  apply (line_holds_top_nibbles (LL := raw_laws) "full.raw" "out.mem"
           Raw.full_size Raw.full_canvas false Raw.world0 1).
  - vm_compute. reflexivity.
  - exact full_canvas_is_canvas.
  - reflexivity.
  - lia.
Defined.

Lemma rerun_same_files_witness :
  exists w2,
    convert_image_to_mem (L := Raw.raw_lib) "in.raw" "out.mem"
      (converted (L := Raw.raw_lib) "in.raw" "out.mem" Raw.small_canvas true
         Raw.world0)
    = (Ok tt, w2)
    /\ fs w2
       = fs (converted (L := Raw.raw_lib) "in.raw" "out.mem" Raw.small_canvas
               true Raw.world0).
Proof.
  apply (rerun_same_files (LL := raw_laws) "in.raw" "out.mem" Raw.world0).
  - intros [=].
  - apply (convert_ok (LL := raw_laws)) with (bytes := Raw.four_pixels).
    + vm_compute. reflexivity.
    + exact small_canvas_is_canvas.
    + reflexivity.
Defined.

Lemma short_canvas_is_canvas :
  Canvas (L := Short.short_lib) Raw.full_size Raw.full_canvas false.
Proof. eapply canvas_as_is; reflexivity. Qed.

Lemma failure_leaves_partial_output_witness :
  convert_image_to_mem (L := Short.short_lib) "full.raw" "out.mem" Raw.world0
  = (Raise IndexError,
     {| fs := <["out.mem" :=
                 unlines (firstn 70 (canvas_lines (L := Short.short_lib)
                                       Raw.full_canvas))]> (fs Raw.world0);
        stdout := stdout Raw.world0 ++ resize_notice "full.raw" false;
        writable := writable Raw.world0 |}).
Proof.
  apply (failure_leaves_partial_output (L := Short.short_lib) "full.raw"
           "out.mem" Raw.full_size Raw.full_canvas false Raw.world0 70
           IndexError).
  - vm_compute. reflexivity.
  - exact short_canvas_is_canvas.
  - reflexivity.
  - lia.
  - intros k Hk.
    assert (Hall : forallb
              (fun k => match pixel_outcome (L := Short.short_lib)
                                Raw.full_canvas (Z.of_nat k mod 64)
                                (Z.of_nat k / 64) with
                        | Ok _ => true
                        | Raise _ => false
                        end) (seq 0 70) = true) by (vm_compute; reflexivity).
    rewrite forallb_forall in Hall.
    specialize (Hall k ltac:(apply in_seq; lia)).
    destruct (pixel_outcome (L := Short.short_lib) Raw.full_canvas
                (Z.of_nat k mod 64) (Z.of_nat k / 64)) as [c | e'];
      [exists c; reflexivity | discriminate Hall].
  - vm_compute. reflexivity.
Defined.

End OtherRuns.
